(** * Emergent: the control loop, its state store and its reliability supervision

    A shallow embedding of the Python sources [reliability.py],
    [state_manager.py], [agent_v2.py] and [continuous.py], and the
    properties of the specification that are settled on it.

    Conventions of the embedding:
    - a Python [int] is a [Z]; a [str] is a [string]; [None] is [None];
    - a reading of [time.time()] is a rational number [Q] of seconds and is
      passed to the function that reads the clock, one argument per reading
      (every float is a rational, and the difference of two readings that are
      within a factor two of each other is exact in floating point);
    - [datetime.utcnow().isoformat() + "Z"] is a [string] passed the same way;
    - a raised exception is a value of [Py.exn]; a call that may raise
      returns a sum, exceptions on the left;
    - a text file holds the text written to it, and a read in text mode
      hands it over with its line endings turned into line feeds;
    - text written to the console or to the log file is not modelled. *)

From Stdlib Require Import ZArith QArith Lqa.
From stdpp Require Import base decidable option list strings gmap pretty.

Local Open Scope Z_scope.

(** ** Python primitives used by the sources *)

Module Py.

(** The two exception classes that the handlers of the sources tell apart:
    [except KeyboardInterrupt] and [except Exception as e]; [text] is
    [str(e)]. *)
Inductive exn : Type :=
| KeyboardInterrupt
| Exception (text : string).

(** The values held in the dictionaries of the program, as [json.loads]
    builds them (of the numbers, the integers). *)
#[warnings="-register-all"]
Inductive val : Type :=
| VNone
| VBool (b : bool)
| VInt (n : Z)
| VStr (s : string)
| VList (l : list val)
| VDict (d : list (string * val)).

(** [l[start:]] *)
Definition slice_from {A : Type} (start : Z) (l : list A) : list A :=
  let len := Z.of_nat (length l) in
  let s := if start <? 0 then Z.max 0 (start + len) else Z.min start len in
  drop (Z.to_nat s) l.

(** Truth value of a [str]: only the empty string is false. *)
Definition truthy_str (s : string) : bool :=
  match s with
  | EmptyString => false
  | String _ _ => true
  end.

(** [x < y] on clock readings. *)
Definition Qltb (x y : Q) : bool :=
  (Qnum x * Zpos (Qden y) <? Qnum y * Zpos (Qden x))%Z.

(** [int(x)] of a float: truncation towards zero. *)
Definition int_of_float (x : Q) : Z := Z.quot (Qnum x) (Zpos (Qden x)).

(** [str(n)] of an int. *)
Definition str_of_int (n : Z) : string := pretty n.

(** [str(KeyError(k))] is the [repr] of the key. *)
Definition KeyError (k : string) : exn := Exception ("'" +:+ k +:+ "'").

(** A [dict] with string keys, in insertion order; keys occur once. *)
Definition dict : Type := list (string * val).

(** The value bound to [k], if any. *)
Fixpoint lookup (d : dict) (k : string) : option val :=
  match d with
  | [] => None
  | (k', v) :: d' => if bool_decide (k' = k) then Some v else lookup d' k
  end.

(** [d[k]] *)
Definition getitem (d : dict) (k : string) : exn + val :=
  match lookup d k with
  | Some v => inr v
  | None => inl (KeyError k)
  end.

(** [d.get(k, dflt)] *)
Definition get (d : dict) (k : string) (dflt : val) : val :=
  default dflt (lookup d k).

(** [d[k] = v]: an existing key keeps its position. *)
Fixpoint setitem (d : dict) (k : string) (v : val) : dict :=
  match d with
  | [] => [(k, v)]
  | (k', v') :: d' =>
      if bool_decide (k' = k) then (k, v) :: d' else (k', v') :: setitem d' k v
  end.

(** The name of the type of a value, as error messages print it. *)
Definition type_name (v : val) : string :=
  match v with
  | VNone => "NoneType"
  | VBool _ => "bool"
  | VInt _ => "int"
  | VStr _ => "str"
  | VList _ => "list"
  | VDict _ => "dict"
  end.

(** [v[k]] for a string key [k] on an arbitrary value: only a dict has
    string keys, the other types raise [TypeError]. *)
Definition val_getitem (v : val) (k : string) : exn + val :=
  match v with
  | VDict d => getitem d k
  | VList _ => inl (Exception "list indices must be integers or slices, not str")
  | VStr _ => inl (Exception "string indices must be integers, not 'str'")
  | _ => inl (Exception ("'" +:+ type_name v +:+ "' object is not subscriptable"))
  end.

(** [v.get(k, dflt)] on an arbitrary value: only a dict has [get], the other
    types raise [AttributeError]. *)
Definition val_get (v : val) (k : string) (dflt : val) : exn + val :=
  match v with
  | VDict d => inr (get d k dflt)
  | _ => inl (Exception ("'" +:+ type_name v +:+ "' object has no attribute 'get'"))
  end.

(** [str(v)] for a value that is not a container. *)
Definition str_of_scalar (v : val) : string :=
  match v with
  | VNone => "None"
  | VBool true => "True"
  | VBool false => "False"
  | VInt n => str_of_int n
  | VStr s => s
  | VList _ | VDict _ => ""
  end.

(** Truth value of an [Optional[str]]. *)
Definition truthy_opt (o : option string) : bool :=
  match o with
  | Some s => truthy_str s
  | None => false
  end.

(** The carriage return and the line feed. *)
Definition CR : Ascii.ascii := Ascii.ascii_of_nat 13.
Definition LF : Ascii.ascii := Ascii.ascii_of_nat 10.

(** [f.read()] on a file opened with [open(path, 'r')], given the text the
    file holds: in text mode every line ending, a carriage return followed
    by a line feed or a carriage return alone, is handed over as one line
    feed. *)
Fixpoint universal_newlines (s : string) : string :=
  match s with
  | EmptyString => EmptyString
  | String c s' =>
      if Ascii.eqb c CR then
        String LF
          match s' with
          | String c' s'' =>
              if Ascii.eqb c' LF then universal_newlines s'' else universal_newlines s'
          | EmptyString => EmptyString
          end
      else String c (universal_newlines s')
  end.


End Py.

(** ** reliability.py *)

Module Reliability.

(** [collections.deque(maxlen=...)]: the elements, oldest first. *)
Record deque : Type := {
  items : list string;
  maxlen : nat
}.

(** [deque.append]: append on the right, then drop the leftmost element
    when the bound is exceeded. *)
Definition deque_append (d : deque) (x : string) : deque :=
  let l := items d ++ [x] in
  {| items := if (maxlen d <? length l)%nat then tail l else l;
     maxlen := maxlen d |}.

Record ReliabilityMonitor : Type := {
  recent_actions : deque;
  last_progress_time : Q;
  total_tokens_since_progress : Z;
  loop_threshold : Z;
  watchdog_timeout : Z;
  token_waste_threshold : Z
}.

(** [__init__]; [now] is the reading of [time.time()]. *)
Definition init (now : Q) : ReliabilityMonitor :=
  {| recent_actions := {| items := []; maxlen := 10 |};
     last_progress_time := now;
     total_tokens_since_progress := 0;
     loop_threshold := 3;
     watchdog_timeout := 1800;
     token_waste_threshold := 100000 |}.

(** [record_action]; [now] is what [time.time()] returns if it is read. *)
Definition record_action (m : ReliabilityMonitor) (action : string)
    (made_progress : bool) (tokens_used : Z) (now : Q) : ReliabilityMonitor :=
  let m1 :=
    {| recent_actions := deque_append (recent_actions m) action;
       last_progress_time := last_progress_time m;
       total_tokens_since_progress := total_tokens_since_progress m + tokens_used;
       loop_threshold := loop_threshold m;
       watchdog_timeout := watchdog_timeout m;
       token_waste_threshold := token_waste_threshold m |} in
  if made_progress then
    {| recent_actions := recent_actions m1;
       last_progress_time := now;
       total_tokens_since_progress := 0;
       loop_threshold := loop_threshold m1;
       watchdog_timeout := watchdog_timeout m1;
       token_waste_threshold := token_waste_threshold m1 |}
  else m1.

(** [len(set(recent))] *)
Definition distinct_count (recent : list string) : nat :=
  size (list_to_set recent : gset string).

(** [detect_loop] *)
Definition detect_loop (m : ReliabilityMonitor) : option string :=
  let actions := items (recent_actions m) in
  if Z.of_nat (length actions) <? loop_threshold m then None
  else
    let recent := Py.slice_from (- loop_threshold m) actions in
    if (distinct_count recent =? 1)%nat then recent !! 0%nat
    else if (4 <=? length recent)%nat then
      match recent !! 0%nat, recent !! 1%nat, recent !! 2%nat, recent !! 3%nat with
      | Some r0, Some r1, Some r2, Some r3 =>
          if bool_decide (r0 = r2) && bool_decide (r1 = r3)
          then Some ("alternating: " +:+ r0 +:+ " <-> " +:+ r1)
          else None
      | _, _, _, _ => None
      end
    else None.

(** [check_watchdog]; [now] is the reading of [time.time()]. *)
Definition check_watchdog (m : ReliabilityMonitor) (now : Q) : bool :=
  Py.Qltb (inject_Z (watchdog_timeout m)) (now - last_progress_time m)%Q.

(** [check_token_waste] *)
Definition check_token_waste (m : ReliabilityMonitor) : bool :=
  token_waste_threshold m <? total_tokens_since_progress m.

(** The dict returned by [should_restart]. *)
Record RestartDecision : Type := {
  should_restart_flag : bool;
  reason : option string;
  details : option string
}.

(** [should_restart]; [now_check] is the clock reading inside
    [check_watchdog], [now_report] the later one used for the message. *)
Definition should_restart (m : ReliabilityMonitor) (now_check now_report : Q)
    : RestartDecision :=
  let loop := detect_loop m in
  if Py.truthy_opt loop then
    {| should_restart_flag := true;
       reason := Some "loop_detected";
       details := Some ("Agent stuck repeating: " +:+ default "None" loop) |}
  else if check_watchdog m now_check then
    let time_since := Py.int_of_float (now_report - last_progress_time m)%Q in
    {| should_restart_flag := true;
       reason := Some "watchdog_timeout";
       details := Some ("No progress for " +:+ Py.str_of_int time_since +:+ "s") |}
  else if check_token_waste m then
    {| should_restart_flag := true;
       reason := Some "token_waste";
       details := Some ("Used " +:+ Py.str_of_int (total_tokens_since_progress m)
                          +:+ " tokens without progress") |}
  else
    {| should_restart_flag := false; reason := None; details := None |}.

(** One call of [record_action] with the clock reading it would see. *)
Record call : Type := {
  c_action : string;
  c_made_progress : bool;
  c_tokens_used : Z;
  c_now : Q
}.

(** The monitor after a sequence of [record_action] calls, first call first. *)
Definition record_all (m : ReliabilityMonitor) (calls : list call) : ReliabilityMonitor :=
  foldl (fun m c => record_action m (c_action c) (c_made_progress c)
                      (c_tokens_used c) (c_now c)) m calls.

(** [record_action(action)] with the default arguments
    [made_progress=False, tokens_used=0]. *)
Definition plain (action : string) (now : Q) : call :=
  {| c_action := action; c_made_progress := false; c_tokens_used := 0; c_now := now |}.

End Reliability.


(** ** state_manager.py *)

Module StateManager.

(** A [pathlib.Path], as the list of its components. *)
Definition path : Type := list string.

(** [p / name] *)
Definition path_join (p : path) (name : string) : path := p ++ [name].

(** An entry of [state["recent_actions"]]. *)
Record ActionEntry : Type := {
  timestamp : string;
  action : string;
  success : Py.val;
  summary : Py.val
}.

(** The state dict built by [_create_initial_state] and kept in
    [.agent_state.json]. *)
Record State : Type := {
  version : string;
  initialized_at : string;
  current_working_directory : path;
  files_in_context : list string;
  recent_actions : list ActionEntry;
  current_phase : string;
  actions_since_reflection : Z;
  last_reflection : option string;
  total_actions : Z;
  session_start : string;
  metadata : Py.dict
}.

(** The files of the workspace: the text files (the memory documents) and
    the JSON snapshots of the run state, each kind keyed by path.  A text
    file holds what the last write put there ([f.write] on a file opened
    with ['w'] stores the text as it is on the POSIX systems that the paths
    of the sources name); what a read in text mode hands over is in
    [load_one].  The directories of the paths are taken to exist, and
    encodings and I/O failures are not modelled. *)
Record Files : Type := {
  texts : gmap path string;
  snapshots : gmap path State
}.

Record StateManager : Type := {
  workspace : path;
  state_file : path;
  memory_dir : path;
  goals_file : path;
  progress_file : path;
  decisions_file : path;
  blockers_file : path
}.

(** [__init__] *)
Definition init (workspace_path : path) : StateManager :=
  let memory_dir := path_join workspace_path "memory" in
  {| workspace := workspace_path;
     state_file := path_join workspace_path ".agent_state.json";
     memory_dir := memory_dir;
     goals_file := path_join memory_dir "goals.md";
     progress_file := path_join memory_dir "progress.md";
     decisions_file := path_join memory_dir "decisions.md";
     blockers_file := path_join memory_dir "blockers.md" |}.

(** [_create_initial_state]; [now1] and [now2] are the two readings of
    [datetime.utcnow()]. *)
Definition _create_initial_state (sm : StateManager) (now1 now2 : string) : State :=
  {| version := "0.1.0";
     initialized_at := now1;
     current_working_directory := path_join (workspace sm) "project";
     files_in_context := [];
     recent_actions := [];
     current_phase := "initialization";
     actions_since_reflection := 0;
     last_reflection := None;
     total_actions := 0;
     session_start := now2;
     metadata := [("goal_set", Py.VBool false); ("project_initialized", Py.VBool false)] |}.

(** [load_state] *)
Definition load_state (sm : StateManager) (fs : Files) (now1 now2 : string) : State :=
  match snapshots fs !! state_file sm with
  | None => _create_initial_state sm now1 now2
  | Some st => st
  end.

(** [save_state] *)
Definition save_state (sm : StateManager) (st : State) (fs : Files) : Files :=
  {| texts := texts fs; snapshots := <[state_file sm := st]> (snapshots fs) |}.

(** [add_action]; [now] is the reading of [datetime.utcnow()]. *)
Definition add_action (st : State) (act : string) (result : Py.dict) (now : string)
    : State :=
  let action_entry :=
    {| timestamp := now;
       action := act;
       success := Py.get result "success" (Py.VBool false);
       summary := Py.get result "summary" (Py.VStr "") |} in
  let appended := recent_actions st ++ [action_entry] in
  let kept :=
    if (20 <? length appended)%nat then Py.slice_from (-20) appended else appended in
  {| version := version st;
     initialized_at := initialized_at st;
     current_working_directory := current_working_directory st;
     files_in_context := files_in_context st;
     recent_actions := kept;
     current_phase := current_phase st;
     actions_since_reflection := actions_since_reflection st + 1;
     last_reflection := last_reflection st;
     total_actions := total_actions st + 1;
     session_start := session_start st;
     metadata := metadata st |}.

(** One step of [load_memory]: [if file.exists(): memory[key] = f.read()],
    the file being opened in text mode. *)
Definition load_one (fs : Files) (key : string) (file : path)
    (memory : gmap string string) : gmap string string :=
  match texts fs !! file with
  | Some content => <[key := Py.universal_newlines content]> memory
  | None => memory
  end.

(** [load_memory] *)
Definition load_memory (sm : StateManager) (fs : Files) : gmap string string :=
  let memory := ∅ in
  let memory := load_one fs "goals" (goals_file sm) memory in
  let memory := load_one fs "progress" (progress_file sm) memory in
  let memory := load_one fs "decisions" (decisions_file sm) memory in
  let memory := load_one fs "blockers" (blockers_file sm) memory in
  memory.

(** The dict [file_map] of [update_memory_file]. *)
Definition file_map (sm : StateManager) : gmap string path :=
  <["blockers" := blockers_file sm]>
    (<["decisions" := decisions_file sm]>
       (<["progress" := progress_file sm]>
          (<["goals" := goals_file sm]> ∅))).

(** [update_memory_file]: [ValueError] for an unknown kind, else the file
    is overwritten. *)
Definition update_memory_file (sm : StateManager) (file_type content : string)
    (fs : Files) : Py.exn + Files :=
  match file_map sm !! file_type with
  | None => inl (Py.Exception ("Unknown memory file type: " +:+ file_type))
  | Some file =>
      inr {| texts := <[file := content]> (texts fs); snapshots := snapshots fs |}
  end.

(** [should_reflect] *)
Definition should_reflect (st : State) : bool := 10 <=? actions_since_reflection st.

(** [mark_reflection]; [now] is the reading of [datetime.utcnow()]. *)
Definition mark_reflection (st : State) (now : string) : State :=
  {| version := version st;
     initialized_at := initialized_at st;
     current_working_directory := current_working_directory st;
     files_in_context := files_in_context st;
     recent_actions := recent_actions st;
     current_phase := current_phase st;
     actions_since_reflection := 0;
     last_reflection := Some now;
     total_actions := total_actions st;
     session_start := session_start st;
     metadata := metadata st |}.

End StateManager.

(** ** agent_v2.py *)

Module AgentV2.

Import StateManager.

(** A tool call of the assistant message: [tool_call.id],
    [tool_call.function.name], [tool_call.function.arguments]. *)
Record tool_call : Type := {
  tc_id : string;
  tc_name : string;
  tc_arguments : string
}.

(** [response.choices[0].message]; an absent [tool_calls] is the empty list. *)
Record assistant_message : Type := {
  am_content : option string;
  am_tool_calls : list tool_call
}.

(** An element of the conversation [messages]. *)
Inductive message : Type :=
| Msg (role content : string)
| MsgAssistant (m : assistant_message)
| MsgTool (tool_call_id content : string).

(** What a method of [FileTools] or [CommandTools] does when it is called:
    it returns a result dict or raises, and may change the files. *)
Definition tool_effect : Type := Files -> (Py.exn + Py.dict) * Files.

(** What the surroundings answer during the [k]-th tool call of an
    iteration. *)
Record call_env : Type := {
  tool : tool_effect;
  now_recorded : string
}.

(** What the surroundings answer during one iteration of the loop of [run]:
    the clock at [mark_reflection], the outcome of
    [client.chat.completions.create(...)] followed by [choices[0].message],
    the tool calls, and the clock in the [except Exception] handler. *)
Record iter_env : Type := {
  now_reflection : string;
  completion : Py.exn + assistant_message;
  call_envs : nat -> call_env;
  now_error : string
}.

(** The variables of [run] that the loop reads and writes, with
    [self.running] and the files of the workspace. *)
Record locals : Type := {
  state : State;
  memory : gmap string string;
  messages : list message;
  running : bool;
  iteration : Z;
  files : Files
}.

Definition set_state (st : State) (l : locals) : locals :=
  {| state := st; memory := memory l; messages := messages l;
     running := running l; iteration := iteration l; files := files l |}.

Definition set_memory (m : gmap string string) (l : locals) : locals :=
  {| state := state l; memory := m; messages := messages l;
     running := running l; iteration := iteration l; files := files l |}.

Definition set_messages (ms : list message) (l : locals) : locals :=
  {| state := state l; memory := memory l; messages := ms;
     running := running l; iteration := iteration l; files := files l |}.

Definition set_running (b : bool) (l : locals) : locals :=
  {| state := state l; memory := memory l; messages := messages l;
     running := b; iteration := iteration l; files := files l |}.

Definition set_iteration (i : Z) (l : locals) : locals :=
  {| state := state l; memory := memory l; messages := messages l;
     running := running l; iteration := i; files := files l |}.

Definition set_files (fs : Files) (l : locals) : locals :=
  {| state := state l; memory := memory l; messages := messages l;
     running := running l; iteration := iteration l; files := fs |}.

(** Code that reads and writes the variables of [run] and may raise. *)
Definition M (A : Type) : Type := locals -> (Py.exn + A) * locals.

#[global] Instance M_ret : MRet M := fun A x l => (inr x, l).

#[global] Instance M_bind : MBind M := fun A B f m l =>
  match m l with
  | (inl e, l') => (inl e, l')
  | (inr x, l') => f x l'
  end.

(** A call that returns or raises and touches no variable. *)
Definition lift {A : Type} (r : Py.exn + A) : M A := fun l => (r, l).

(** An assignment to the variables. *)
Definition modify (f : locals -> locals) : M unit := fun l => (inr tt, f l).

(** A read of the variables. *)
Definition gets {A : Type} (f : locals -> A) : M A := fun l => (inr (f l), l).

(** A call that works on the files. *)
Definition on_files {A : Type} (f : Files -> (Py.exn + A) * Files) : M A := fun l =>
  let '(r, fs) := f (files l) in (r, set_files fs l).

(** Code that leaves [iteration] and [self.running] as they are. *)
Definition frame {A : Type} (m : M A) : Prop :=
  forall l r l', m l = (r, l') -> iteration l' = iteration l /\ running l' = running l.

(** Code that leaves [iteration] as it is, and [self.running] too unless it
    returns normally. *)
Definition frame_unless_returns {A : Type} (m : M A) : Prop :=
  forall l r l', m l = (r, l') ->
    iteration l' = iteration l /\ (running l' = running l \/ exists x, r = inr x).

(** Code that never raises. *)
Definition total {A : Type} (m : M A) : Prop :=
  forall l, exists x l', m l = (inr x, l').

(** [goals_content] of [_set_goal] *)
Definition goals_content (goal : string) : string :=
  "# Goals

## Primary Objective
" +:+ goal +:+ "

## Success Criteria
- [ ] Goal clearly understood
- [ ] Approach identified
- [ ] Implementation complete
- [ ] Verification done

## Constraints
- Work within the project directory
- Use available tools
- Document decisions

## Current Focus
Starting work on the goal
".

(** [_set_goal] *)
Definition _set_goal (sm : StateManager) (goal : string) (fs : Files) : Py.exn + Files :=
  update_memory_file sm "goals" (goals_content goal) fs.

(** The result dict of a tool. *)
Definition tool_result (ok : bool) (text : string) (suggestions : list string) : Py.dict :=
  [("success", Py.VBool ok); ("summary", Py.VStr text); ("data", Py.VDict []);
   ("next_suggestions", Py.VList (Py.VStr <$> suggestions))].

Section Run.

(** Texts and library functions that the sources use and do not define:
    the constant of [_get_system_prompt], the rendering of
    [get_context_summary] and of the prompt of [_reflect], [json.loads]
    and [json.dumps]. *)
Variable system_prompt : string.
Variable context_summary : State -> gmap string string -> string.
Variable reflection_prompt : State -> gmap string string -> string.
Variable json_loads : string -> Py.exn + Py.val.
Variable json_dumps : Py.val -> string.

Variable sm : StateManager.

(** Evaluation of the optional arguments of a tool, [args.get(k, d)], in
    the order of the call. *)
Fixpoint eval_optional (args : Py.val) (optional : list (string * Py.val))
    : Py.exn + unit :=
  match optional with
  | [] => inr tt
  | (k, d) :: optional' =>
      match Py.val_get args k d with
      | inl e => inl e
      | inr _ => eval_optional args optional'
      end
  end.

(** Evaluation of the arguments of a tool, in the order of the call: the
    required ones with [args[k]], then the optional ones. *)
Fixpoint eval_args (args : Py.val) (required : list string)
    (optional : list (string * Py.val)) : Py.exn + unit :=
  match required with
  | k :: required' =>
      match Py.val_getitem args k with
      | inl e => inl e
      | inr _ => eval_args args required' optional
      end
  | [] => eval_optional args optional
  end.

(** A branch of [_execute_tool] that calls a method of the tool objects. *)
Definition call_tool (args : Py.val) (required : list string)
    (optional : list (string * Py.val)) (ext : tool_effect) (fs : Files)
    : (Py.exn + Py.dict) * Files :=
  match eval_args args required optional with
  | inl e => (inl e, fs)
  | inr _ => ext fs
  end.

(** The [update_memory] branch of [_execute_tool]: both arguments are read,
    then [update_memory_file] is called; a kind that is not a string is
    unknown (or not hashable), a content that is not a string makes
    [f.write] fail on the file just opened for writing. *)
Definition call_update_memory (args : Py.val) (fs : Files) : (Py.exn + Py.dict) * Files :=
  match Py.val_getitem args "file_type" with
  | inl e => (inl e, fs)
  | inr file_type =>
      match Py.val_getitem args "content" with
      | inl e => (inl e, fs)
      | inr content =>
          match file_type with
          | Py.VStr kind =>
              match content with
              | Py.VStr text =>
                  match update_memory_file sm kind text fs with
                  | inl e => (inl e, fs)
                  | inr fs' =>
                      (inr (tool_result true ("Updated " +:+ kind +:+ " memory")
                              ["Continue with next task"]), fs')
                  end
              | _ =>
                  match update_memory_file sm kind "" fs with
                  | inl e => (inl e, fs)
                  | inr fs' =>
                      (inl (Py.Exception ("write() argument must be str, not "
                                            +:+ Py.type_name content)), fs')
                  end
              end
          | Py.VList _ | Py.VDict _ =>
              (inl (Py.Exception ("unhashable type: '" +:+ Py.type_name file_type +:+ "'")),
               fs)
          | _ =>
              (inl (Py.Exception ("Unknown memory file type: " +:+ Py.str_of_scalar file_type)),
               fs)
          end
      end
  end.

(** The body of the [try] of [_execute_tool]. *)
Definition dispatch (function_name : string) (args : Py.val) (ext : tool_effect)
    (fs : Files) : (Py.exn + Py.dict) * Files :=
  if String.eqb function_name "search_files" then
    call_tool args ["query"] [("file_pattern", Py.VStr "*")] ext fs
  else if String.eqb function_name "read_file" then
    call_tool args ["file_path"] [("start_line", Py.VNone); ("end_line", Py.VNone)] ext fs
  else if String.eqb function_name "write_file" then
    call_tool args ["file_path"; "content"] [] ext fs
  else if String.eqb function_name "list_files" then
    call_tool args [] [("directory", Py.VStr "."); ("pattern", Py.VStr "*")] ext fs
  else if String.eqb function_name "run_command" then
    call_tool args ["command"] [("timeout", Py.VInt 30)] ext fs
  else if String.eqb function_name "get_project_structure" then
    call_tool args [] [("max_depth", Py.VInt 3)] ext fs
  else if String.eqb function_name "update_memory" then
    call_update_memory args fs
  else if String.eqb function_name "complete_goal" then
    match Py.val_getitem args "summary" with
    | inl e => (inl e, fs)
    | inr text =>
        (inr [("success", Py.VBool true); ("summary", text); ("data", Py.VDict []);
              ("next_suggestions", Py.VList [])], fs)
    end
  else
    (inr (tool_result false ("Unknown tool: " +:+ function_name) []), fs).

(** [_execute_tool]: the [except Exception] turns an exception of the body
    into a failed result; a [KeyboardInterrupt] passes. *)
Definition _execute_tool (function_name : string) (args : Py.val) (ext : tool_effect)
    (fs : Files) : (Py.exn + Py.dict) * Files :=
  match dispatch function_name args ext fs with
  | (inl (Py.Exception text), fs') =>
      (inr (tool_result false ("Tool execution failed: " +:+ text)
              ["Try a different approach"]), fs')
  | other => other
  end.

(** The descriptor under which [run] records a tool call. *)
Definition descriptor (function_name : string) (function_args : Py.val) : string :=
  function_name +:+ "(" +:+ json_dumps function_args +:+ ")".

(** The [for tool_call in assistant_message.tool_calls] loop of [run], from
    the [k]-th call on. *)
Fixpoint run_tool_calls (e : iter_env) (k : nat) (calls : list tool_call) : M unit :=
  match calls with
  | [] => mret tt
  | tc :: calls' =>
      let function_name := tc_name tc in
      function_args ← lift (json_loads (tc_arguments tc));
      result ← on_files (_execute_tool function_name function_args (tool (call_envs e k)));
      _ ← modify (fun l =>
             set_messages (messages l ++ [MsgTool (tc_id tc) (json_dumps (Py.VDict result))]) l);
      _ ← modify (fun l =>
             set_state (add_action (state l) (descriptor function_name function_args)
                          result (now_recorded (call_envs e k))) l);
      _ ← lift (Py.getitem result "success");
      _ ← lift (Py.getitem result "summary");
      if String.eqb function_name "complete_goal" then
        _ ← lift (Py.val_getitem function_args "summary");
        modify (set_running false)
      else run_tool_calls e (S k) calls'
  end.

(** [_reflect]: the prompt is appended to the conversation. *)
Definition _reflect : M unit :=
  modify (fun l =>
    set_messages (messages l ++ [Msg "user" (reflection_prompt (state l) (memory l))]) l).

(** The body of the [try] of one iteration of [run]. *)
Definition iteration_body (e : iter_env) : M unit :=
  reflect ← gets (fun l => should_reflect (state l));
  _ ← (if reflect : bool then
         _ ← _reflect;
         _ ← modify (fun l => set_state (mark_reflection (state l) (now_reflection e)) l);
         modify (fun l => set_memory (load_memory sm (files l)) l)
       else mret tt);
  context ← gets (fun l => context_summary (state l) (memory l));
  _ ← modify (fun l =>
         if (iteration l =? 1) || (actions_since_reflection (state l) =? 0)
         then set_messages [Msg "system" system_prompt; Msg "user" context] l
         else l);
  assistant ← lift (completion e);
  _ ← modify (fun l => set_messages (messages l ++ [MsgAssistant assistant]) l);
  _ ← run_tool_calls e 0 (am_tool_calls assistant);
  _ ← modify (fun l => set_files (save_state sm (state l) (files l)) l);
  modify (fun l =>
    if (20 <? length (messages l))%nat
    then set_messages (take 1 (messages l) ++ Py.slice_from (-15) (messages l)) l
    else l).

(** How an iteration hands control back to the [while] loop. *)
Inductive control : Type :=
| NextIteration
| BreakLoop.

(** The dict [result] built by the [except Exception] handler of [run]. *)
Definition error_result (text : string) : Py.dict :=
  [("success", Py.VBool false); ("summary", Py.VStr ("Error: " +:+ text))].

(** One iteration of the loop of [run] after [iteration += 1]: the [try]
    with its two handlers. *)
Definition iteration_step (e : iter_env) (l : locals) : control * locals :=
  match iteration_body e l with
  | (inr _, l') => (NextIteration, l')
  | (inl Py.KeyboardInterrupt, l') =>
      (BreakLoop, set_files (save_state sm (state l') (files l')) l')
  | (inl (Py.Exception text), l') =>
      let st := add_action (state l') "error" (error_result text) (now_error e) in
      (NextIteration, set_files (save_state sm st (files l')) (set_state st l'))
  end.

(** The loop [while self.running and iteration < max_iterations]; [env i]
    is what the surroundings answer during iteration [i].  Each turn
    increments [iteration], so [max_iterations - iteration] turns of fuel
    are never used up. *)
Fixpoint run_loop (fuel : nat) (env : Z -> iter_env) (max_iterations : Z) (l : locals)
    : locals :=
  match fuel with
  | O => l
  | S fuel' =>
      if running l && (iteration l <? max_iterations) then
        let l1 := set_iteration (iteration l + 1) l in
        match iteration_step (env (iteration l1)) l1 with
        | (NextIteration, l2) => run_loop fuel' env max_iterations l2
        | (BreakLoop, l2) => l2
        end
      else l
  end.

(** [run]: the state it returns, or the exception it raises, with the files
    it leaves.  On the files of the embedding the calls before the [try]
    raise nothing: a state file that is there holds a state that parses,
    and the memory directory exists. *)
Definition run (initial_goal : option string) (max_iterations : Z)
    (now1 now2 : string) (env : Z -> iter_env) (fs : Files) : (Py.exn + State) * Files :=
  let st := load_state sm fs now1 now2 in
  let mem := load_memory sm fs in
  let start (st : State) (mem : gmap string string) (fs : Files) :=
    let l := run_loop (Z.to_nat max_iterations) env max_iterations
               {| state := st; memory := mem; messages := []; running := true;
                  iteration := 0; files := fs |} in
    (inr (state l), files l) in
  if Py.truthy_opt initial_goal then
    match _set_goal sm (default "" initial_goal) fs with
    | inl e => (inl e, fs)
    | inr fs' =>
        let mem' := load_memory sm fs' in
        let st' :=
          {| version := version st;
             initialized_at := initialized_at st;
             current_working_directory := current_working_directory st;
             files_in_context := files_in_context st;
             recent_actions := recent_actions st;
             current_phase := current_phase st;
             actions_since_reflection := actions_since_reflection st;
             last_reflection := last_reflection st;
             total_actions := total_actions st;
             session_start := session_start st;
             metadata := Py.setitem (metadata st) "goal_set" (Py.VBool true) |} in
        start st' mem' fs'
    end
  else start st mem fs.

End Run.

End AgentV2.

(** ** continuous.py *)

Module Continuous.

(** The dict returned by [run_session]. *)
Record SessionResult : Type := {
  success : bool;
  duration : Q;
  total_actions : Z;
  error : option string
}.

(** [run_session]: [agent] is the outcome of constructing the agent and
    calling its [run]; [session_start] and [now] are the readings of
    [time.time()] before and after (the second one is not read when the
    session is interrupted). *)
Definition run_session (session_start : Q) (agent : Py.exn + StateManager.State)
    (now : Q) : Py.exn + SessionResult :=
  match agent with
  | inr state =>
      inr {| success := true;
             duration := (now - session_start)%Q;
             total_actions := StateManager.total_actions state;
             error := None |}
  | inl Py.KeyboardInterrupt => inl Py.KeyboardInterrupt
  | inl (Py.Exception text) =>
      inr {| success := false;
             duration := (now - session_start)%Q;
             total_actions := 0;
             error := Some text |}
  end.

(** An entry of [stats["errors"]]. *)
Record ErrorEntry : Type := {
  err_timestamp : string;
  err_error : option string
}.

(** The dict [stats] of [run_continuous]. *)
Record Stats : Type := {
  goal : string;
  started_at : string;
  duration_hours : Z;
  sessions_completed : Z;
  sessions_failed : Z;
  stats_total_actions : Z;
  total_runtime : Q;
  errors : list ErrorEntry;
  ended_at : option string
}.

(** What the surroundings answer during one turn of the loop of
    [run_continuous]: the readings of [time.time()] in the order they are
    taken, the outcome of the agent, the clock for the error entry, what the
    test on [.agent_state.json] after the session finds, and whether
    [time.sleep] is interrupted by the user.  The test finds no file
    ([None]), a file that [open], [json.load] or [state.get] raise on (a
    state file that does not parse, for one), or the state the file
    holds. *)
Record session_env : Type := {
  t_loop_check : Q;
  t_remaining : Q;
  t_session_start : Q;
  agent_outcome : Py.exn + StateManager.State;
  t_session_end : Q;
  now_error : string;
  state_file_after : option (Py.exn + StateManager.State);
  t_delay_check : Q;
  sleep_interrupted : bool
}.

(** The run so far: [stats], every snapshot written by [update_stats]
    (latest last), and the number of sessions started. *)
Record run_state : Type := {
  stats : Stats;
  persisted : list Stats;
  sessions_started : nat
}.

(** [stats] after a session: the branches of [if result["success"]] and
    the runtime. *)
Definition account (st : Stats) (result : SessionResult) (now_err : string) : Stats :=
  let st1 :=
    if success result then
      {| goal := goal st; started_at := started_at st;
         duration_hours := duration_hours st;
         sessions_completed := sessions_completed st + 1;
         sessions_failed := sessions_failed st;
         stats_total_actions := stats_total_actions st + total_actions result;
         total_runtime := total_runtime st;
         errors := errors st;
         ended_at := ended_at st |}
    else
      {| goal := goal st; started_at := started_at st;
         duration_hours := duration_hours st;
         sessions_completed := sessions_completed st;
         sessions_failed := sessions_failed st + 1;
         stats_total_actions := stats_total_actions st;
         total_runtime := total_runtime st;
         errors := errors st ++ [{| err_timestamp := now_err; err_error := error result |}];
         ended_at := ended_at st |} in
  {| goal := goal st1; started_at := started_at st1;
     duration_hours := duration_hours st1;
     sessions_completed := sessions_completed st1;
     sessions_failed := sessions_failed st1;
     stats_total_actions := stats_total_actions st1;
     total_runtime := (total_runtime st1 + duration result)%Q;
     errors := errors st1;
     ended_at := ended_at st1 |}.

(** The test on [.agent_state.json]: the file exists and its
    [current_phase] is ["complete"]. *)
Definition goal_complete (snapshot : option StateManager.State) : bool :=
  match snapshot with
  | Some state => String.eqb (StateManager.current_phase state) "complete"
  | None => false
  end.

(** How the [while] loop of [run_continuous] is left; [Propagated] is an
    exception that no handler of [run_continuous] catches, and [ScriptEnded]
    says that the loop is still running when the list of answers ends. *)
Inductive loop_exit : Type :=
| BudgetExpired
| GoalComplete
| UserInterrupt
| Propagated (text : string)
| ScriptEnded.

(** The block [if state_file.exists(): ...] after a session: how it leaves
    the loop, if it does.  It stands in the [try] whose only handler is
    [except KeyboardInterrupt]. *)
Definition completion_check (found : option (Py.exn + StateManager.State))
    : option loop_exit :=
  match found with
  | None => None
  | Some (inl Py.KeyboardInterrupt) => Some UserInterrupt
  | Some (inl (Py.Exception text)) => Some (Propagated text)
  | Some (inr state) => if goal_complete (Some state) then Some GoalComplete else None
  end.

(** The loop [while time.time() < end_time] of [run_continuous]. *)
Fixpoint session_loop (end_time : Q) (envs : list session_env) (r : run_state)
    : loop_exit * run_state :=
  match envs with
  | [] => (ScriptEnded, r)
  | e :: envs' =>
      if Py.Qltb (t_loop_check e) end_time then
        let r1 := {| stats := stats r; persisted := persisted r;
                     sessions_started := S (sessions_started r) |} in
        match run_session (t_session_start e) (agent_outcome e) (t_session_end e) with
        | inl Py.KeyboardInterrupt => (UserInterrupt, r1)
        | inl (Py.Exception text) => (Propagated text, r1)
        | inr result =>
            let st := account (stats r1) result (now_error e) in
            let r2 := {| stats := st; persisted := persisted r1 ++ [st];
                         sessions_started := sessions_started r1 |} in
            match completion_check (state_file_after e) with
            | Some exit => (exit, r2)
            | None =>
                if Py.Qltb (t_delay_check e) end_time && sleep_interrupted e
                then (UserInterrupt, r2)
                else session_loop end_time envs' r2
            end
        end
      else (BudgetExpired, r)
  end.

(** The [finally] of [run_continuous]. *)
Definition finalize (start_time : Q) (now : Q) (now_text : string) (r : run_state)
    : run_state :=
  let st :=
    {| goal := goal (stats r); started_at := started_at (stats r);
       duration_hours := duration_hours (stats r);
       sessions_completed := sessions_completed (stats r);
       sessions_failed := sessions_failed (stats r);
       stats_total_actions := stats_total_actions (stats r);
       total_runtime := (now - start_time)%Q;
       errors := errors (stats r);
       ended_at := Some now_text |} in
  {| stats := st; persisted := persisted r ++ [st];
     sessions_started := sessions_started r |}.

(** [run_continuous]: [start_time] and [started] are the first readings of
    the two clocks, [envs] the answers of the surroundings turn by turn, and
    [final_time], [ended] the readings in the [finally].  The arguments
    [session_iterations], [session_timeout] and [restart_delay] only reach
    the agent, the log and [time.sleep]. *)
Definition run_continuous (goal_text : string) (hours : Z) (start_time : Q)
    (started : string) (envs : list session_env) (final_time : Q) (ended : string)
    : loop_exit * run_state :=
  let end_time := (start_time + inject_Z (hours * 3600))%Q in
  let st :=
    {| goal := goal_text; started_at := started; duration_hours := hours;
       sessions_completed := 0; sessions_failed := 0; stats_total_actions := 0;
       total_runtime := 0%Q; errors := []; ended_at := None |} in
  let '(exit, r) :=
    session_loop end_time envs {| stats := st; persisted := []; sessions_started := 0 |} in
  match exit with
  | ScriptEnded => (exit, r)
  | _ => (exit, finalize start_time final_time ended r)
  end.

End Continuous.

(** ** Concrete surroundings for the examples *)

Module Demo.

Import StateManager AgentV2.

Definition ws : path := ["home"; "ubuntu"; "emergent"].

Definition manager : StateManager := init ws.

(** The double quote character. *)
Definition dquote : string := String (Ascii.ascii_of_nat 34) EmptyString.

(** [json.dumps] of a string without characters that need an escape. *)
Definition quoted (s : string) : string := dquote +:+ s +:+ dquote.

(** [", ".join(parts)] *)
Fixpoint join (parts : list string) : string :=
  match parts with
  | [] => EmptyString
  | [p] => p
  | p :: parts' => p +:+ ", " +:+ join parts'
  end.

(** [json.dumps] on values whose strings need no escape. *)
Fixpoint json_dumps (v : Py.val) : string :=
  match v with
  | Py.VNone => "null"
  | Py.VBool true => "true"
  | Py.VBool false => "false"
  | Py.VInt n => Py.str_of_int n
  | Py.VStr s => quoted s
  | Py.VList l => "[" +:+ join (map json_dumps l) +:+ "]"
  | Py.VDict d =>
      "{" +:+ join (map (fun kv => quoted (fst kv) +:+ ": " +:+ json_dumps (snd kv)) d)
          +:+ "}"
  end.

(** [json.loads] on the argument texts of the examples: the empty object,
    and anything else taken as a text that is not JSON. *)
Definition json_loads (text : string) : Py.exn + Py.val :=
  if String.eqb text "{}" then inr (Py.VDict [])
  else inl (Py.Exception "Expecting value: line 1 column 1 (char 0)").

Definition system_prompt : string := "You are an autonomous coding agent working toward a goal.".

Definition context_summary (st : State) (mem : gmap string string) : string :=
  "# Agent Context".

Definition reflection_prompt (st : State) (mem : gmap string string) : string :=
  "Time to reflect on your recent work.".

(** A tool that succeeds and leaves the files alone. *)
Definition quiet_tool : tool_effect :=
  fun fs => (inr (tool_result true "ok" []), fs).

Definition quiet_call : call_env :=
  {| tool := quiet_tool; now_recorded := "2025-01-01T00:00:01Z" |}.

(** An iteration in which the request to the decision service fails. *)
Definition failing_request : iter_env :=
  {| now_reflection := "2025-01-01T00:00:00Z";
     completion := inl (Py.Exception "Connection error.");
     call_envs := fun _ => quiet_call;
     now_error := "2025-01-01T00:00:02Z" |}.

(** An iteration in which the decision is a call of [read_file] whose
    arguments are the empty object: the required [file_path] is missing. *)
Definition missing_argument : iter_env :=
  {| now_reflection := "2025-01-01T00:00:00Z";
     completion :=
       inr {| am_content := None;
              am_tool_calls :=
                [{| tc_id := "call_1"; tc_name := "read_file"; tc_arguments := "{}" |}] |};
     call_envs := fun _ => quiet_call;
     now_error := "2025-01-01T00:00:02Z" |}.

Definition no_files : Files := {| texts := ∅; snapshots := ∅ |}.


(** The variables of [run] when the loop is entered on an empty workspace. *)
Definition fresh : locals :=
  {| state := _create_initial_state manager "2025-01-01T00:00:00Z" "2025-01-01T00:00:00Z";
     memory := ∅;
     messages := [];
     running := true;
     iteration := 0;
     files := no_files |}.

(** A turn of the supervisor's loop whose session raises. *)
Definition crashing_session : Continuous.session_env :=
  {| Continuous.t_loop_check := 100;
     Continuous.t_remaining := 100;
     Continuous.t_session_start := 101;
     Continuous.agent_outcome := inl (Py.Exception "The api_key client option must be set");
     Continuous.t_session_end := 102;
     Continuous.now_error := "2025-01-01T00:01:42Z";
     Continuous.state_file_after := None;
     Continuous.t_delay_check := 103;
     Continuous.sleep_interrupted := false |}.

(** A turn of the supervisor's loop on a workspace whose
    [.agent_state.json] does not parse: [load_state] raises in the session,
    and [json.load] raises again in the test after the session. *)
Definition unreadable_state_session : Continuous.session_env :=
  {| Continuous.t_loop_check := 100;
     Continuous.t_remaining := 100;
     Continuous.t_session_start := 101;
     Continuous.agent_outcome :=
       inl (Py.Exception "Expecting value: line 1 column 1 (char 0)");
     Continuous.t_session_end := 102;
     Continuous.now_error := "2025-01-01T00:01:42Z";
     Continuous.state_file_after :=
       Some (inl (Py.Exception "Expecting value: line 1 column 1 (char 0)"));
     Continuous.t_delay_check := 103;
     Continuous.sleep_interrupted := false |}.

(** The stats with which [run_continuous] enters its loop. *)
Definition no_sessions_yet : Continuous.run_state :=
  {| Continuous.stats :=
       {| Continuous.goal := "build it"; Continuous.started_at := "2025-01-01T00:00:00Z";
          Continuous.duration_hours := 24; Continuous.sessions_completed := 0;
          Continuous.sessions_failed := 0; Continuous.stats_total_actions := 0;
          Continuous.total_runtime := 0%Q; Continuous.errors := [];
          Continuous.ended_at := None |};
     Continuous.persisted := [];
     Continuous.sessions_started := 0 |}.

End Demo.

(** ** More Python primitives: substrings, joins, truth values *)

Module PyStr.

(** [s.startswith(p)] *)
Fixpoint is_prefix (p s : string) : bool :=
  match p, s with
  | EmptyString, _ => true
  | String _ _, EmptyString => false
  | String a p', String b s' => Ascii.eqb a b && is_prefix p' s'
  end.

(** [sub in s] on strings. *)
Fixpoint contains (sub s : string) : bool :=
  is_prefix sub s ||
  match s with
  | EmptyString => false
  | String _ s' => contains sub s'
  end.

(** [any(x in s for x in words)] *)
Definition contains_any (words : list string) (s : string) : bool :=
  existsb (fun x => contains x s) words.

(** [", ".join(parts)] *)
Fixpoint join_comma (parts : list string) : string :=
  match parts with
  | [] => EmptyString
  | [p] => p
  | p :: parts' => p +:+ ", " +:+ join_comma parts'
  end.

(** Truth value of a value. *)
Definition truthy (v : Py.val) : bool :=
  match v with
  | Py.VNone => false
  | Py.VBool b => b
  | Py.VInt n => negb (n =? 0)
  | Py.VStr s => Py.truthy_str s
  | Py.VList l => match l with [] => false | _ :: _ => true end
  | Py.VDict d => match d with [] => false | _ :: _ => true end
  end.

(** The line feed character. *)
Definition nl : string := String (Ascii.ascii_of_nat 10) EmptyString.

End PyStr.

(** ** reliability.py: [get_status] and the progress tracker *)

Module Status.

Import Reliability.

(** The dict returned by [get_status]. *)
Record Status : Type := {
  st_recent_actions : list string;
  st_time_since_progress : Z;
  st_tokens_since_progress : Z;
  st_loop_detected : option string;
  st_watchdog_ok : bool;
  st_token_usage_ok : bool
}.

(** [get_status]; [now_first] is the clock reading for
    [time_since_progress], [now_check] the one inside [check_watchdog]. *)
Definition get_status (m : ReliabilityMonitor) (now_first now_check : Q) : Status :=
  {| st_recent_actions := items (recent_actions m);
     st_time_since_progress := Py.int_of_float (now_first - last_progress_time m)%Q;
     st_tokens_since_progress := total_tokens_since_progress m;
     st_loop_detected := detect_loop m;
     st_watchdog_ok := negb (check_watchdog m now_check);
     st_token_usage_ok := negb (check_token_waste m) |}.

End Status.

Module Tracker.

(** An element of [milestones]: its ["type"], the key and value of its
    subject (["file"] or ["command"]), and its ["timestamp"]. *)
Record Milestone : Type := {
  m_type : string;
  m_key : string;
  m_subject : string;
  m_timestamp : Q
}.

Record ProgressTracker : Type := {
  milestones : list Milestone;
  files_created : gset string;
  files_modified : gset string;
  commands_run : list string;
  tests_passed : Z;
  errors_encountered : Z
}.

(** [__init__] *)
Definition init : ProgressTracker :=
  {| milestones := []; files_created := ∅; files_modified := ∅;
     commands_run := []; tests_passed := 0; errors_encountered := 0 |}.

(** [record_file_created]; [now] is the reading of [time.time()]. *)
Definition record_file_created (t : ProgressTracker) (filepath : string) (now : Q)
    : ProgressTracker :=
  {| milestones :=
       milestones t ++
       [{| m_type := "file_created"; m_key := "file"; m_subject := filepath;
           m_timestamp := now |}];
     files_created := {[filepath]} ∪ files_created t;
     files_modified := files_modified t;
     commands_run := commands_run t;
     tests_passed := tests_passed t;
     errors_encountered := errors_encountered t |}.

(** [record_file_modified] *)
Definition record_file_modified (t : ProgressTracker) (filepath : string) (now : Q)
    : ProgressTracker :=
  {| milestones :=
       milestones t ++
       [{| m_type := "file_modified"; m_key := "file"; m_subject := filepath;
           m_timestamp := now |}];
     files_created := files_created t;
     files_modified := {[filepath]} ∪ files_modified t;
     commands_run := commands_run t;
     tests_passed := tests_passed t;
     errors_encountered := errors_encountered t |}.

(** [record_error] *)
Definition record_error (t : ProgressTracker) (error : string) : ProgressTracker :=
  {| milestones := milestones t;
     files_created := files_created t;
     files_modified := files_modified t;
     commands_run := commands_run t;
     tests_passed := tests_passed t;
     errors_encountered := errors_encountered t + 1 |}.

(** [made_progress_recently]; [now] is the reading of [time.time()]. *)
Definition made_progress_recently (t : ProgressTracker) (window : Z) (now : Q) : bool :=
  let recent_time := (now - inject_Z window)%Q in
  let recent_milestones :=
    filter (fun m => Py.Qltb recent_time (m_timestamp m) = true) (milestones t) in
  (0 <? length recent_milestones)%nat.

(** The dict returned by [get_summary]. *)
Record Summary : Type := {
  s_files_created : nat;
  s_files_modified : nat;
  s_commands_run : nat;
  s_tests_passed : Z;
  s_errors_encountered : Z;
  s_total_milestones : nat;
  s_recent_progress : bool
}.

(** [get_summary]; [now] is the clock reading inside
    [made_progress_recently()], whose window is the default 600. *)
Definition get_summary (t : ProgressTracker) (now : Q) : Summary :=
  {| s_files_created := size (files_created t);
     s_files_modified := size (files_modified t);
     s_commands_run := length (commands_run t);
     s_tests_passed := tests_passed t;
     s_errors_encountered := errors_encountered t;
     s_total_milestones := length (milestones t);
     s_recent_progress := made_progress_recently t 600 now |}.

Section Commands.

(** [str.lower], which the sources use and do not define. *)
Variable lower : string -> string.

(** [record_command_success]; the [output] is not looked at. *)
Definition record_command_success (t : ProgressTracker) (command output : string)
    (now : Q) : ProgressTracker :=
  let is_test :=
    PyStr.contains "test" (lower command) || PyStr.contains "pytest" (lower command) in
  {| milestones :=
       milestones t ++
       [{| m_type := if is_test then "test_passed" else "command_success";
           m_key := "command"; m_subject := command; m_timestamp := now |}];
     files_created := files_created t;
     files_modified := files_modified t;
     commands_run := commands_run t ++ [command];
     tests_passed := if is_test then tests_passed t + 1 else tests_passed t;
     errors_encountered := errors_encountered t |}.

(** A call of one of the recording methods. *)
Inductive op : Type :=
| FileCreated (filepath : string) (now : Q)
| FileModified (filepath : string) (now : Q)
| CommandSuccess (command output : string) (now : Q)
| Error (error : string).

Definition apply (t : ProgressTracker) (o : op) : ProgressTracker :=
  match o with
  | FileCreated filepath now => record_file_created t filepath now
  | FileModified filepath now => record_file_modified t filepath now
  | CommandSuccess command output now => record_command_success t command output now
  | Error error => record_error t error
  end.

(** The tracker after a sequence of calls on a fresh one, first call first. *)
Definition apply_all (ops : list op) : ProgressTracker := foldl apply init ops.

End Commands.

(** The clock reading a call stores in a milestone, if it stores one. *)
Definition op_time (o : op) : option Q :=
  match o with
  | FileCreated _ now | FileModified _ now | CommandSuccess _ _ now => Some now
  | Error _ => None
  end.

(** The path a call adds to [files_created], if it adds one. *)
Definition op_created (o : op) : option string :=
  match o with
  | FileCreated filepath _ => Some filepath
  | _ => None
  end.

(** The path a call adds to [files_modified], if it adds one. *)
Definition op_modified (o : op) : option string :=
  match o with
  | FileModified filepath _ => Some filepath
  | _ => None
  end.

(** The command a call appends to [commands_run], if it appends one. *)
Definition op_command (o : op) : option string :=
  match o with
  | CommandSuccess command _ _ => Some command
  | _ => None
  end.

(** Whether a call is [record_error]. *)
Definition is_error (o : op) : bool :=
  match o with
  | Error _ => true
  | _ => false
  end.

End Tracker.

(** ** state_manager.py: [get_context_summary] *)

Module Context.

Import StateManager.

Section Summary.

(** [str] on a path and on a list or a dict, which the sources use and do
    not define. *)
Variable str_of_path : path -> string.
Variable str_of_container : Py.val -> string.

(** What an f-string prints for a value. *)
Definition str_of (v : Py.val) : string :=
  match v with
  | Py.VList _ | Py.VDict _ => str_of_container v
  | _ => Py.str_of_scalar v
  end.

(** The line that [get_context_summary] adds for one recent action. *)
Definition action_line (a : ActionEntry) : string :=
  (if PyStr.truthy (success a) then "✓" else "✗")
    +:+ " " +:+ action a +:+ ": " +:+ str_of (summary a) +:+ PyStr.nl.

(** [get_context_summary] *)
Definition get_context_summary (st : State) (memory : gmap string string) : string :=
  let summary :=
    "# Agent Context

## Current State
- Working Directory: " +:+ str_of_path (current_working_directory st) +:+ "
- Current Phase: " +:+ current_phase st +:+ "
- Total Actions: " +:+ Py.str_of_int (total_actions st) +:+ "
- Actions Since Last Reflection: " +:+ Py.str_of_int (actions_since_reflection st) +:+ "

## Files in Context
" +:+ (match files_in_context st with
       | [] => "None"
       | _ :: _ => PyStr.join_comma (files_in_context st)
       end) +:+ "

## Recent Actions (Last 5)
" in
  let recent :=
    match recent_actions st with
    | [] => []
    | _ :: _ => Py.slice_from (-5) (recent_actions st)
    end in
  let summary := foldl (fun text a => text +:+ action_line a) summary recent in
  let summary :=
    summary +:+ PyStr.nl +:+ "## Memory" +:+ PyStr.nl +:+ PyStr.nl +:+ "### Goals"
      +:+ PyStr.nl +:+ default "Not set" (memory !! "goals") +:+ PyStr.nl in
  let summary :=
    summary +:+ PyStr.nl +:+ "### Progress" +:+ PyStr.nl
      +:+ default "None" (memory !! "progress") +:+ PyStr.nl in
  let summary :=
    summary +:+ PyStr.nl +:+ "### Blockers" +:+ PyStr.nl
      +:+ default "None" (memory !! "blockers") +:+ PyStr.nl in
  summary.

End Summary.

End Context.

(** ** Predicates on the code of the control loop *)

Module LoopLogic.

Import StateManager AgentV2.

(** Code whose every run, raising or not, relates the variables before and
    after by [R]. *)
Definition keeps {A : Type} (R : locals -> locals -> Prop) (m : M A) : Prop :=
  forall l r l', m l = (r, l') -> R l l'.

(** Code whose every normal return leaves variables that satisfy [Q]. *)
Definition ensures {A : Type} (Q : locals -> Prop) (m : M A) : Prop :=
  forall l x l', m l = (inr x, l') -> Q l'.

(** How the control loop lets a state change: the counter of actions does
    not go down, a history of at most 20 entries stays so, and the fields
    that only [_create_initial_state] and the caller set stay as they are. *)
Definition evolves (st st' : State) : Prop :=
  total_actions st <= total_actions st' /\
  ((length (recent_actions st) <= 20)%nat -> (length (recent_actions st') <= 20)%nat) /\
  current_phase st' = current_phase st /\
  metadata st' = metadata st /\
  version st' = version st /\
  initialized_at st' = initialized_at st /\
  session_start st' = session_start st /\
  current_working_directory st' = current_working_directory st /\
  files_in_context st' = files_in_context st.

(** The state of the variables evolves. *)
Definition state_evolves (l l' : locals) : Prop := evolves (state l) (state l').

(** The state file holds the current state. *)
Definition saved (sm : StateManager) (l : locals) : Prop :=
  snapshots (files l) !! state_file sm = Some (state l).

(** A tool call, the [k]-th of a reply, that the loop over the tool calls
    gets through to reach the next one: it is not [complete_goal], its
    arguments parse, and whatever the files hold the tool is not interrupted
    by the user and its result has the keys [success] and [summary] that
    [run] prints. *)
Definition goes_through (json_loads : string -> Py.exn + Py.val) (sm : StateManager)
    (e : iter_env) (k : nat) (tc : tool_call) : Prop :=
  tc_name tc <> "complete_goal" /\
  exists args,
    json_loads (tc_arguments tc) = inr args /\
    forall fs, exists result fs',
      _execute_tool sm (tc_name tc) args (tool (call_envs e k)) fs = (inr result, fs') /\
      is_Some (Py.lookup result "success") /\ is_Some (Py.lookup result "summary").

End LoopLogic.

(** ** What the turns of the supervisor's loop count for *)

Module SupervisorLogic.

Import Continuous.

(** The session of a turn returned. *)
Definition session_completed (e : session_env) : bool :=
  match agent_outcome e with
  | inr _ => true
  | inl _ => false
  end.

(** The session of a turn raised an exception other than a user interrupt. *)
Definition session_failed (e : session_env) : bool :=
  match agent_outcome e with
  | inl (Py.Exception _) => true
  | _ => false
  end.

(** The actions that the session of a turn reports. *)
Definition session_actions (e : session_env) : Z :=
  match agent_outcome e with
  | inr state => StateManager.total_actions state
  | inl _ => 0
  end.

(** The entry that the session of a turn adds to the error log. *)
Definition session_error (e : session_env) : option ErrorEntry :=
  match agent_outcome e with
  | inl (Py.Exception text) =>
      Some {| err_timestamp := now_error e; err_error := Some text |}
  | _ => None
  end.

(** The number of turns among [ran] for which [p] holds. *)
Definition tally (p : session_env -> bool) (ran : list session_env) : Z :=
  foldr Z.add 0 ((fun e => if p e then 1 else 0) <$> ran).

(** The stats with which [run_continuous] enters its loop. *)
Definition initial_run (goal_text : string) (hours : Z) (started : string) : run_state :=
  {| stats :=
       {| goal := goal_text; started_at := started; duration_hours := hours;
          sessions_completed := 0; sessions_failed := 0; stats_total_actions := 0;
          total_runtime := 0%Q; errors := []; ended_at := None |};
     persisted := [];
     sessions_started := 0 |}.

End SupervisorLogic.

(** ** tools/command_tools.py: the helpers that read no output *)

Module CommandTools.

(** The dict built by [_parse_test_output]. *)
Record TestResults : Type := {
  passed : Z;
  failed : Z;
  total : Z
}.

(** The dict [analysis] built by [_analyze_output]. *)
Record Analysis : Type := {
  a_type : string;
  a_errors : list string;
  a_warnings : list string;
  a_test_results : option TestResults;
  a_files_mentioned : list string
}.

(** [_suggest_next_steps]; the [command] is not looked at. *)
Definition _suggest_next_steps (success : bool) (analysis : Analysis) (command : string)
    : list string :=
  if negb success then
    let suggestions :=
      match a_errors analysis with
      | [] => []
      | _ :: _ =>
          ["Read error messages to understand what failed"] ++
          match a_files_mentioned analysis with
          | [] => []
          | _ :: _ =>
              ["Check files: " +:+ PyStr.join_comma (take 3 (a_files_mentioned analysis))]
          end
      end in
    suggestions ++ ["Fix the errors and try again"]
  else
    let suggestions :=
      if String.eqb (a_type analysis) "test" then
        if match a_test_results analysis with
           | Some results => 0 <? failed results
           | None => false
           end
        then
          ["Fix failing tests"] ++
          match a_files_mentioned analysis with
          | [] => []
          | _ :: _ =>
              ["Check test files: "
                 +:+ PyStr.join_comma (take 3 (a_files_mentioned analysis))]
          end
        else ["Tests passing - continue with next task"]
      else if String.eqb (a_type analysis) "build" then
        ["Build successful - try running the program"]
      else if String.eqb (a_type analysis) "run" then
        ["Program ran successfully"] ++
        match a_warnings analysis with
        | [] => []
        | _ :: _ =>
            ["Address " +:+ Py.str_of_int (Z.of_nat (length (a_warnings analysis)))
               +:+ " warning(s)"]
        end
      else [] in
    match suggestions with
    | [] => ["Command completed - continue with next step"]
    | _ :: _ => suggestions
    end.

Section Lower.

(** [str.lower], which the sources use and do not define. *)
Variable lower : string -> string.

(** [_detect_command_type] *)
Definition _detect_command_type (command : string) : string :=
  let cmd_lower := lower command in
  if PyStr.contains_any ["pytest"; "test"; "jest"; "cargo test"] cmd_lower then "test"
  else if PyStr.contains_any ["build"; "compile"; "make"] cmd_lower then "build"
  else if PyStr.contains_any ["run"; "execute"; "python"; "node"] cmd_lower then "run"
  else if PyStr.contains_any ["install"; "pip"; "npm"; "cargo"] cmd_lower then "install"
  else "other".

End Lower.

End CommandTools.

(** ** More concrete surroundings for the examples *)

Module Demo2.

Import StateManager AgentV2.

(** [str.lower] on the letters A to Z; other characters are kept. *)
Definition lower_ascii (a : Ascii.ascii) : Ascii.ascii :=
  let n := Ascii.nat_of_ascii a in
  if (65 <=? n)%nat && (n <=? 90)%nat then Ascii.ascii_of_nat (n + 32) else a.

Fixpoint lower (s : string) : string :=
  match s with
  | EmptyString => EmptyString
  | String a s' => String (lower_ascii a) (lower s')
  end.

(** [str] of a path: its components after slashes. *)
Fixpoint str_of_path (p : path) : string :=
  match p with
  | [] => EmptyString
  | c :: p' => "/" +:+ c +:+ str_of_path p'
  end.

(** [str] of a list or a dict; the examples print none but the empty list. *)
Definition str_of_container (v : Py.val) : string := "[]".

Definition entry (n : string) : ActionEntry :=
  {| timestamp := "2025-01-01T00:00:00Z"; action := "read_file(" +:+ n +:+ ")";
     success := Py.VBool true; summary := Py.VStr "ok" |}.

(** A state with the given history and the other fields of a fresh one. *)
Definition with_history (history : list ActionEntry) (since : Z) : State :=
  {| version := "0.1.0";
     initialized_at := "2025-01-01T00:00:00Z";
     current_working_directory := ["home"; "ubuntu"; "emergent"; "project"];
     files_in_context := [];
     recent_actions := history;
     current_phase := "initialization";
     actions_since_reflection := since;
     last_reflection := None;
     total_actions := 12;
     session_start := "2025-01-01T00:00:00Z";
     metadata := [("goal_set", Py.VBool true); ("project_initialized", Py.VBool false)] |}.

(** The variables of [run] when a reflection is due. *)
Definition due_for_reflection : locals :=
  {| state := with_history [entry "a"; entry "b"] 10;
     memory := ∅;
     messages := [Msg "system" Demo.system_prompt; Msg "user" "# Agent Context"];
     running := true;
     iteration := 7;
     files := Demo.no_files |}.

(** A reply without tool calls. *)
Definition thinking : assistant_message :=
  {| am_content := Some "Let me think."; am_tool_calls := [] |}.

(** An iteration whose reply carries no tool call. *)
Definition plain_reply : iter_env :=
  {| now_reflection := "2025-01-01T00:10:00Z";
     completion := inr thinking;
     call_envs := fun _ => Demo.quiet_call;
     now_error := "2025-01-01T00:10:02Z" |}.

(** An iteration interrupted by the user during the request. *)
Definition interrupted_request : iter_env :=
  {| now_reflection := "2025-01-01T00:10:00Z";
     completion := inl Py.KeyboardInterrupt;
     call_envs := fun _ => Demo.quiet_call;
     now_error := "2025-01-01T00:10:02Z" |}.

(** A [read_file] call without its path, which [_execute_tool] answers
    with a failed result. *)
Definition reading : tool_call :=
  {| tc_id := "call_8"; tc_name := "read_file"; tc_arguments := "{}" |}.

(** A [complete_goal] call with the given argument text. *)
Definition finishing (arguments : string) : tool_call :=
  {| tc_id := "call_9"; tc_name := "complete_goal"; tc_arguments := arguments |}.

Definition listing : tool_call :=
  {| tc_id := "call_10"; tc_name := "list_files"; tc_arguments := "{}" |}.

(** A reply with three tool calls, the second of which is [complete_goal]
    with the given argument text. *)
Definition three_calls (arguments : string) : assistant_message :=
  {| am_content := None; am_tool_calls := [reading; finishing arguments; listing] |}.

Definition completing_second (arguments : string) : iter_env :=
  {| now_reflection := "2025-01-01T00:10:00Z";
     completion := inr (three_calls arguments);
     call_envs := fun _ => Demo.quiet_call;
     now_error := "2025-01-01T00:10:02Z" |}.


(** [json.loads] on the argument texts of the examples. *)
Definition json_loads (text : string) : Py.exn + Py.val :=
  if String.eqb text "{}" then inr (Py.VDict [])
  else if String.eqb text "done" then inr (Py.VDict [("summary", Py.VStr "All done")])
  else inl (Py.Exception "Expecting value: line 1 column 1 (char 0)").

(** A turn of the supervisor's loop whose session returns. *)
Definition good_session : Continuous.session_env :=
  {| Continuous.t_loop_check := 100;
     Continuous.t_remaining := 100;
     Continuous.t_session_start := 101;
     Continuous.agent_outcome := inr (with_history [entry "a"] 1);
     Continuous.t_session_end := 150;
     Continuous.now_error := "2025-01-01T00:01:42Z";
     Continuous.state_file_after := Some (inr (with_history [entry "a"] 1));
     Continuous.t_delay_check := 151;
     Continuous.sleep_interrupted := false |}.

End Demo2.

(** * Properties *)

(** ** Facts about the Python primitives *)

Module PyFacts.

Lemma Qltb_lt (x y : Q) : Py.Qltb x y = true <-> (x < y)%Q.
Proof. unfold Py.Qltb, Qlt. apply Z.ltb_lt. Qed.

Lemma Qltb_ge (x y : Q) : Py.Qltb x y = false <-> (y <= x)%Q.
Proof. unfold Py.Qltb, Qle. apply Z.ltb_ge. Qed.

(** [l[-n:]] keeps the last [n] elements when [n] is positive. *)
Lemma slice_from_last {A : Type} (n : nat) (l : list A) :
  (0 < n)%nat ->
  Py.slice_from (- Z.of_nat n) l = drop (length l - n) l.
Proof.
  intros Hn. unfold Py.slice_from.
  destruct (Z.ltb_spec (- Z.of_nat n) 0) as [_ | Hge]; [| lia].
  f_equal. lia.
Qed.

Lemma slice_from_last_length {A : Type} (n : nat) (l : list A) :
  (0 < n)%nat ->
  length (Py.slice_from (- Z.of_nat n) l) = (length l `min` n)%nat.
Proof. intros Hn. rewrite slice_from_last by done. rewrite length_drop. lia. Qed.

(** [l[-n:]] of a list that ends with [n] known elements. *)
Lemma slice_from_last_app {A : Type} (n : nat) (pre suf : list A) :
  (0 < n)%nat -> length suf = n ->
  Py.slice_from (- Z.of_nat n) (pre ++ suf) = suf.
Proof.
  intros Hn Hlen. rewrite slice_from_last by done.
  rewrite length_app, Hlen.
  replace (length pre + n - n)%nat with (length pre + 0)%nat by lia.
  by rewrite drop_app_add.
Qed.


End PyFacts.

(** ** The reliability monitor *)

Module ReliabilityFacts.

Import Reliability.

Lemma record_all_snoc (m : ReliabilityMonitor) (calls : list call) (c : call) :
  record_all m (calls ++ [c]) =
  record_action (record_all m calls) (c_action c) (c_made_progress c)
    (c_tokens_used c) (c_now c).
Proof. unfold record_all. by rewrite foldl_app. Qed.

(** The deque keeps the most recent [maxlen] elements of what was appended. *)
Lemma deque_append_keeps_last (n : nat) (l : list string) (x : string) :
  (0 < n)%nat ->
  items (deque_append {| items := drop (length l - n) l; maxlen := n |} x) =
  drop (length (l ++ [x]) - n) (l ++ [x]).
Proof.
  intros Hn. unfold deque_append. simpl.
  rewrite !length_app, length_drop. simpl.
  destruct (Nat.ltb_spec n (length l - (length l - n) + 1)) as [Hlt | Hge].
  - replace (length l + 1 - n)%nat with ((length l - n) + 1)%nat by lia.
    rewrite <- drop_drop. rewrite (drop_app_le l [x]) by lia.
    by destruct (drop (length l - n) l ++ [x]).
  - replace (length l - n)%nat with 0%nat by lia.
    replace (length l + 1 - n)%nat with 0%nat by lia.
    by rewrite !drop_0.
Qed.

(** The constants set by [__init__] are never changed by [record_action]. *)
Lemma record_all_constants (m : ReliabilityMonitor) (calls : list call) :
  loop_threshold (record_all m calls) = loop_threshold m /\
  watchdog_timeout (record_all m calls) = watchdog_timeout m /\
  token_waste_threshold (record_all m calls) = token_waste_threshold m /\
  maxlen (recent_actions (record_all m calls)) = maxlen (recent_actions m).
Proof.
  induction calls as [| c calls IH] using rev_ind; [done |].
  rewrite record_all_snoc. unfold record_action.
  destruct (c_made_progress c); simpl; naive_solver.
Qed.

(** After any calls on a fresh monitor, the deque holds the last ten
    descriptors recorded. *)
Lemma record_all_items (t0 : Q) (calls : list call) :
  items (recent_actions (record_all (init t0) calls)) =
  drop (length calls - 10) (c_action <$> calls).
Proof.
  induction calls as [| c calls IH] using rev_ind; [done |].
  rewrite record_all_snoc.
  pose proof (record_all_constants (init t0) calls) as (_ & _ & _ & Hmax).
  simpl in Hmax.
  assert (Hitems :
    items (recent_actions
             (record_action (record_all (init t0) calls) (c_action c)
                (c_made_progress c) (c_tokens_used c) (c_now c))) =
    items (deque_append (recent_actions (record_all (init t0) calls)) (c_action c))).
  { unfold record_action. by destruct (c_made_progress c). }
  rewrite Hitems.
  replace (recent_actions (record_all (init t0) calls)) with
    {| items := drop (length (c_action <$> calls) - 10) (c_action <$> calls);
       maxlen := 10 |}.
  - rewrite deque_append_keeps_last by lia.
    by rewrite fmap_app, !length_app, length_fmap.
  - destruct (recent_actions (record_all (init t0) calls)) as [its mx].
    simpl in *. subst. by rewrite length_fmap.
Qed.

(** Descriptors at the end of the recorded sequence are at the end of the
    deque, as long as they fit. *)
Lemma record_all_items_suffix (t0 : Q) (calls : list call) (pre suf : list string) :
  c_action <$> calls = pre ++ suf ->
  (length suf <= 10)%nat ->
  exists pre', items (recent_actions (record_all (init t0) calls)) = pre' ++ suf.
Proof.
  intros Heq Hlen. rewrite record_all_items, Heq.
  assert (length calls = (length pre + length suf)%nat) as ->.
  { rewrite <- (length_fmap c_action), Heq. apply length_app. }
  exists (drop (length pre + length suf - 10) pre).
  rewrite drop_app_le by lia. done.
Qed.

(** [len(set([a, b, c])) == 1] exactly when the three are equal. *)
Lemma distinct_count_three (a b c : string) :
  distinct_count [a; b; c] = 1%nat <-> a = b /\ b = c.
Proof.
  unfold distinct_count. split.
  - intros Hsize. apply size_1_elem_of in Hsize as [x Hx].
    assert (forall y, y ∈ [a; b; c] -> y = x) as Hall.
    { intros y Hy. apply (elem_of_singleton (C:=gset string)). rewrite <- Hx.
      by apply elem_of_list_to_set. }
    rewrite (Hall a), (Hall b), (Hall c); [done | | |];
      repeat (first [apply list_elem_of_here | apply list_elem_of_further]).
  - intros [Hab Hbc]. subst a b.
    assert ((list_to_set [c; c; c] : gset string) = {[c]}) as Hs.
    { apply set_eq. intros y. rewrite elem_of_list_to_set, elem_of_singleton.
      rewrite !elem_of_cons, elem_of_nil. tauto. }
    rewrite Hs. apply size_singleton.
Qed.

(** [detect_loop] with the threshold of [__init__]: only the last three
    descriptors are looked at, and only their being equal is reported. *)
Lemma detect_loop_last_three (m : ReliabilityMonitor) (pre : list string)
    (a b c : string) :
  loop_threshold m = 3 ->
  items (recent_actions m) = pre ++ [a; b; c] ->
  detect_loop m = if bool_decide (a = b /\ b = c) then Some a else None.
Proof.
  intros Hthr Hitems. unfold detect_loop. rewrite Hthr, Hitems.
  rewrite length_app. simpl.
  destruct (Z.ltb_spec (Z.of_nat (length pre + 3)) 3) as [Hlt | _]; [lia |].
  change (Z.opp 3) with (Z.opp (Z.of_nat 3)).
  rewrite PyFacts.slice_from_last_app by (done || lia).
  case_bool_decide as Heq.
  - apply distinct_count_three in Heq. by rewrite Heq.
  - destruct (Nat.eqb_spec (distinct_count [a; b; c]) 1) as [H1 | _].
    + by apply distinct_count_three in H1.
    + done.
Qed.

Lemma detect_loop_few (m : ReliabilityMonitor) :
  loop_threshold m = 3 ->
  (length (items (recent_actions m)) < 3)%nat ->
  detect_loop m = None.
Proof.
  intros Hthr Hlen. unfold detect_loop. rewrite Hthr.
  destruct (Z.ltb_spec (Z.of_nat (length (items (recent_actions m)))) 3); [done | lia].
Qed.

(** On a monitor built by [__init__] and [record_action], the result of
    [detect_loop] is decided by the last three descriptors recorded. *)
Lemma detect_loop_recorded (t0 : Q) (calls : list call) (pre : list string)
    (a b c : string) :
  c_action <$> calls = pre ++ [a; b; c] ->
  detect_loop (record_all (init t0) calls) =
  if bool_decide (a = b /\ b = c) then Some a else None.
Proof.
  intros Heq.
  destruct (record_all_items_suffix t0 calls pre [a; b; c] Heq) as [pre' Hitems];
    [simpl; lia |].
  apply (detect_loop_last_three _ pre'); [| done].
  by pose proof (record_all_constants (init t0) calls) as (-> & _).
Qed.

(** Three equal descriptors at the end of the recorded sequence are
    reported with the descriptor itself. *)
Lemma detect_loop_repeated (t0 : Q) (calls : list call) (pre : list string)
    (a : string) :
  c_action <$> calls = pre ++ [a; a; a] ->
  detect_loop (record_all (init t0) calls) = Some a.
Proof.
  intros Heq. rewrite (detect_loop_recorded t0 calls pre a a a Heq).
  by rewrite bool_decide_eq_true_2.
Qed.

(** Three descriptors that are not all equal are not reported. *)
Lemma detect_loop_distinct (t0 : Q) (calls : list call) (pre : list string)
    (a b c : string) :
  c_action <$> calls = pre ++ [a; b; c] ->
  a <> b \/ b <> c ->
  detect_loop (record_all (init t0) calls) = None.
Proof.
  intros Heq Hne. rewrite (detect_loop_recorded t0 calls pre a b c Heq).
  rewrite bool_decide_eq_false_2; [done | tauto].
Qed.

(** Fewer than three recorded descriptors are never reported. *)
Lemma detect_loop_too_few (t0 : Q) (calls : list call) :
  (length calls < 3)%nat ->
  detect_loop (record_all (init t0) calls) = None.
Proof.
  intros Hlen. apply detect_loop_few.
  - by pose proof (record_all_constants (init t0) calls) as (-> & _).
  - rewrite record_all_items, length_drop, length_fmap. lia.
Qed.

(** C1. When the last four descriptors recorded alternate, [a, b, a, b]
    with [a] different from [b], [detect_loop] returns [None]: the slice
    [recent] holds three descriptors, so the test [len(recent) >= 4] that
    guards the alternation check is never true.  The claim asks for the
    alternating pair there. *)
Theorem detect_loop_alternation_unreported (t0 : Q) (calls : list call)
    (pre : list string) (a b : string) :
  c_action <$> calls = pre ++ [a; b; a; b] ->
  a <> b ->
  detect_loop (record_all (init t0) calls) = None.
Proof.
  intros Heq Hne.
  apply (detect_loop_distinct t0 calls (pre ++ [a]) b a b).
  - by rewrite <- app_assoc.
  - left. congruence.
Qed.

Lemma detect_loop_alternation_unreported_witness :
  detect_loop
    (record_all (init 0)
       [plain "A" 1; plain "B" 2; plain "A" 3; plain "B" 4]) = None.
Proof.
  apply (detect_loop_alternation_unreported 0 _ [] "A" "B").
  - reflexivity.
  - discriminate.
Defined.

(** The monitor keeps its last-progress time while no call is flagged as
    progress. *)
Lemma record_all_no_progress (m : ReliabilityMonitor) (calls : list call) :
  Forall (fun c => c_made_progress c = false) calls ->
  last_progress_time (record_all m calls) = last_progress_time m.
Proof.
  induction calls as [| c calls IH] using rev_ind; [done |].
  intros Hall. apply Forall_app in Hall as [Hcalls Hc].
  apply Forall_inv in Hc. simpl in Hc.
  rewrite record_all_snoc. unfold record_action. rewrite Hc. simpl. auto.
Qed.

(** The order of the tests of [should_restart] when the loop test is read
    as the source writes it, [if loop:]: a descriptor returned by
    [detect_loop] that is a true value is reported as "loop_detected" with
    the descriptor in the details whatever the other two say; the watchdog
    is reported only without such a descriptor, the token waste only
    without it and without the watchdog; with none of them the answer is
    the no-restart dict.  After three calls
    [record_action("run_command(pytest)")] on a fresh monitor the answer is
    "loop_detected" with that descriptor in the details. *)
Lemma should_restart_priority (m : ReliabilityMonitor) (now_check now_report : Q) :
  (forall loop, detect_loop m = Some loop -> Py.truthy_str loop = true ->
     should_restart m now_check now_report =
     {| should_restart_flag := true;
        reason := Some "loop_detected";
        details := Some ("Agent stuck repeating: " +:+ loop) |}) /\
  (Py.truthy_opt (detect_loop m) = false -> check_watchdog m now_check = true ->
     should_restart m now_check now_report =
     {| should_restart_flag := true;
        reason := Some "watchdog_timeout";
        details :=
          Some ("No progress for "
                  +:+ Py.str_of_int (Py.int_of_float (now_report - last_progress_time m)%Q)
                  +:+ "s") |}) /\
  (Py.truthy_opt (detect_loop m) = false -> check_watchdog m now_check = false ->
   check_token_waste m = true ->
     should_restart m now_check now_report =
     {| should_restart_flag := true;
        reason := Some "token_waste";
        details :=
          Some ("Used " +:+ Py.str_of_int (total_tokens_since_progress m)
                  +:+ " tokens without progress") |}) /\
  (Py.truthy_opt (detect_loop m) = false -> check_watchdog m now_check = false ->
   check_token_waste m = false ->
     should_restart m now_check now_report =
     {| should_restart_flag := false; reason := None; details := None |}) /\
  (forall t0 t1 t2 t3 : Q,
     should_restart
       (record_all (init t0)
          [plain "run_command(pytest)" t1; plain "run_command(pytest)" t2;
           plain "run_command(pytest)" t3]) now_check now_report =
     {| should_restart_flag := true;
        reason := Some "loop_detected";
        details := Some "Agent stuck repeating: run_command(pytest)" |}).
Proof.
  split_and!.
  - intros loop Hloop Htrue. unfold should_restart. rewrite Hloop. simpl.
    by rewrite Htrue.
  - intros Hloop Hwd. unfold should_restart. cbv zeta. by rewrite Hloop, Hwd.
  - intros Hloop Hwd Htok. unfold should_restart. cbv zeta.
    by rewrite Hloop, Hwd, Htok.
  - intros Hloop Hwd Htok. unfold should_restart. cbv zeta.
    by rewrite Hloop, Hwd, Htok.
  - intros t0 t1 t2 t3. unfold should_restart.
    rewrite (detect_loop_repeated t0 _ [] "run_command(pytest)") by reflexivity.
    reflexivity.
Qed.

Lemma should_restart_priority_witness :
  should_restart (init 0) 2000 2001 =
  {| should_restart_flag := true;
     reason := Some "watchdog_timeout";
     details := Some "No progress for 2001s" |}.
Proof.
  destruct (should_restart_priority (init 0) 2000 2001) as (_ & Hwatchdog & _).
  apply Hwatchdog; reflexivity.
Defined.

(** C2. When the last three descriptors recorded are the empty string,
    [detect_loop] returns the looping action, the empty string and not
    [None], and [should_restart] does not report it: its test [if loop:]
    takes the empty descriptor for no loop, so the answer is the one of the
    watchdog and the token waste alone, and the no-restart dict when
    neither of them fires.  The claim asks for "loop_detected" first
    there. *)
Theorem should_restart_misses_empty_descriptor (t0 : Q) (calls : list call)
    (pre : list string) (now_check now_report : Q) :
  c_action <$> calls = pre ++ [""; ""; ""] ->
  detect_loop (record_all (init t0) calls) = Some "" /\
  reason (should_restart (record_all (init t0) calls) now_check now_report)
    <> Some "loop_detected" /\
  (check_watchdog (record_all (init t0) calls) now_check = false ->
   check_token_waste (record_all (init t0) calls) = false ->
   should_restart (record_all (init t0) calls) now_check now_report =
   {| should_restart_flag := false; reason := None; details := None |}).
Proof.
  intros Hcalls.
  pose proof (detect_loop_repeated t0 calls pre "" Hcalls) as Hloop.
  split_and!; [done | |].
  - unfold should_restart. cbv zeta. rewrite Hloop. cbn.
    destruct (check_watchdog _ now_check); [done |].
    by destruct (check_token_waste _).
  - intros Hwatchdog Htokens. unfold should_restart. cbv zeta.
    rewrite Hloop, Hwatchdog, Htokens. reflexivity.
Qed.

Lemma should_restart_misses_empty_descriptor_witness :
  detect_loop (record_all (init 0) [plain "" 1; plain "" 2; plain "" 3]) = Some "" /\
  should_restart (record_all (init 0) [plain "" 1; plain "" 2; plain "" 3]) 10 11 =
  {| should_restart_flag := false; reason := None; details := None |}.
Proof.
  destruct (should_restart_misses_empty_descriptor 0
              [plain "" 1; plain "" 2; plain "" 3] [] 10 11 eq_refl)
    as (Hloop & _ & Hanswer).
  split; [exact Hloop |]. apply Hanswer; reflexivity.
Defined.

(** C6. [record_action] adds [tokens_used] to the accumulator, and a call
    flagged as progress then sets the accumulator to zero and the
    last-progress time to the clock; a call that is not flagged leaves the
    sum and the time as they are.  On a monitor built by [__init__] and
    [record_action], [check_token_waste] is true exactly when the
    accumulator is greater than 100000. *)
Theorem record_action_accounting (m : ReliabilityMonitor) (act : string)
    (made_progress : bool) (tokens_used : Z) (now : Q) :
  total_tokens_since_progress (record_action m act made_progress tokens_used now) =
    (if made_progress then 0 else total_tokens_since_progress m + tokens_used) /\
  last_progress_time (record_action m act made_progress tokens_used now) =
    (if made_progress then now else last_progress_time m) /\
  (forall (t0 : Q) (calls : list call),
     check_token_waste (record_all (init t0) calls) = true <->
     100000 < total_tokens_since_progress (record_all (init t0) calls)).
Proof.
  split_and!.
  - unfold record_action. by destruct made_progress.
  - unfold record_action. by destruct made_progress.
  - intros t0 calls. unfold check_token_waste.
    pose proof (record_all_constants (init t0) calls) as (_ & _ & -> & _).
    apply Z.ltb_lt.
Qed.

(** C10. The last-progress time of a fresh monitor is the time of its
    construction: as long as no call was flagged as progress,
    [check_watchdog] is true exactly when more than 1800 seconds have passed
    since [__init__]. *)
Theorem watchdog_counts_from_construction (t0 : Q) (calls : list call) (now : Q) :
  Forall (fun c => c_made_progress c = false) calls ->
  check_watchdog (record_all (init t0) calls) now = true <-> (1800 < now - t0)%Q.
Proof.
  intros Hall. unfold check_watchdog.
  rewrite (record_all_no_progress _ _ Hall).
  pose proof (record_all_constants (init t0) calls) as (_ & -> & _).
  simpl. apply PyFacts.Qltb_lt.
Qed.

Lemma watchdog_counts_from_construction_witness :
  (check_watchdog (record_all (init 100) [plain "a" 200; plain "b" 1900]) 1900 = false) /\
  (check_watchdog (record_all (init 100) [plain "a" 200; plain "b" 1900]) 1901 = true).
Proof.
  split.
  - apply not_true_is_false. intros H.
    apply (watchdog_counts_from_construction 100 [plain "a" 200; plain "b" 1900] 1900)
      in H; [| repeat constructor].
    revert H. apply Qle_not_lt. discriminate.
  - apply (watchdog_counts_from_construction 100 [plain "a" 200; plain "b" 1900] 1901);
      [repeat constructor | reflexivity].
Defined.

End ReliabilityFacts.

(** ** The state store *)

Module StateManagerFacts.

Import StateManager.

(** The trimmed history is the end of the history with the new entry
    appended, at most 20 entries long. *)
Lemma add_action_history (st : State) (act : string) (result : Py.dict) (now : string) :
  let entry :=
    {| timestamp := now; action := act;
       success := Py.get result "success" (Py.VBool false);
       summary := Py.get result "summary" (Py.VStr "") |} in
  recent_actions (add_action st act result now) =
  drop (length (recent_actions st ++ [entry]) - 20) (recent_actions st ++ [entry]).
Proof.
  intros entry. unfold add_action. simpl. fold entry.
  destruct (Nat.ltb_spec 20 (length (recent_actions st ++ [entry]))) as [Hlt | Hge].
  - change (-20) with (- Z.of_nat 20). by rewrite PyFacts.slice_from_last by lia.
  - replace (length (recent_actions st ++ [entry]) - 20)%nat with 0%nat by lia.
    by rewrite drop_0.
Qed.

Lemma foldl_add_action_total (st : State) (calls : list (string * Py.dict * string)) :
  total_actions
    (foldl (fun st c => add_action st c.1.1 c.1.2 c.2) st calls) =
  total_actions st + Z.of_nat (length calls).
Proof.
  revert st. induction calls as [| c calls IH]; intros st; simpl.
  - lia.
  - rewrite IH. simpl. lia.
Qed.

Lemma foldl_add_action_bounded (st : State) (calls : list (string * Py.dict * string)) :
  (length (recent_actions st) <= 20)%nat ->
  (length (recent_actions (foldl (fun st c => add_action st c.1.1 c.1.2 c.2) st calls))
   <= 20)%nat.
Proof.
  revert st. induction calls as [| c calls IH]; intros st Hlen; cbn [foldl].
  - done.
  - apply IH. rewrite add_action_history, length_drop. lia.
Qed.

(** C4. After every call of [add_action] the history has at most 20
    entries, whatever the state before: it is the end of the old history
    followed by the new entry, so the oldest entries are the ones dropped;
    and [total_actions] grows by exactly one per call, by [n] after [n]
    calls. *)
Theorem add_action_bounded_history (st : State) (act : string) (result : Py.dict)
    (now : string) :
  (length (recent_actions (add_action st act result now)) <= 20)%nat /\
  (exists evicted entry,
     recent_actions st ++ [entry] =
       evicted ++ recent_actions (add_action st act result now) /\
     action entry = act /\ timestamp entry = now) /\
  total_actions (add_action st act result now) = total_actions st + 1 /\
  (forall calls : list (string * Py.dict * string),
     let st' :=
       foldl (fun st c => add_action st c.1.1 c.1.2 c.2)
         (add_action st act result now) calls in
     (length (recent_actions st') <= 20)%nat /\
     total_actions st' = total_actions st + 1 + Z.of_nat (length calls)).
Proof.
  split_and!.
  - rewrite add_action_history, length_drop. lia.
  - eexists (take _ _), _. rewrite add_action_history.
    split; [symmetry; apply take_drop | done].
  - done.
  - intros calls st'. subst st'. split.
    + apply foldl_add_action_bounded. rewrite add_action_history, length_drop. lia.
    + by rewrite foldl_add_action_total.
Qed.

(** C5. [should_reflect] is true exactly when [actions_since_reflection]
    is at least 10, and [mark_reflection] returns a state whose counter is 0
    and whose [last_reflection] is the clock reading. *)
Theorem reflection_threshold_and_reset (st : State) (now : string) :
  (should_reflect st = true <-> 10 <= actions_since_reflection st) /\
  actions_since_reflection (mark_reflection st now) = 0 /\
  last_reflection (mark_reflection st now) = Some now.
Proof.
  split_and!; [| done | done].
  unfold should_reflect. apply Z.leb_le.
Qed.








End StateManagerFacts.

(** ** The control loop *)

Module AgentV2Facts.

Import StateManager AgentV2.

(** The entry that [add_action] appends is the last of the new history. *)
Lemma add_action_last (st : State) (act : string) (result : Py.dict) (now : string) :
  last (recent_actions (add_action st act result now)) =
  Some {| timestamp := now; action := act;
          success := Py.get result "success" (Py.VBool false);
          summary := Py.get result "summary" (Py.VStr "") |}.
Proof.
  rewrite StateManagerFacts.add_action_history. cbv zeta.
  rewrite length_app. simpl.
  rewrite drop_app_le by lia. apply last_snoc.
Qed.

Lemma frame_ret {A : Type} (x : A) : frame (mret x).
Proof. intros l r l' H. by inversion H. Qed.

Lemma frame_lift {A : Type} (r : Py.exn + A) : frame (lift r).
Proof. intros l r' l' H. by inversion H. Qed.

Lemma frame_gets {A : Type} (f : locals -> A) : frame (gets f).
Proof. intros l r l' H. by inversion H. Qed.

Lemma frame_modify (f : locals -> locals) :
  (forall l, iteration (f l) = iteration l /\ running (f l) = running l) ->
  frame (modify f).
Proof. intros Hf l r l' H. inversion H. subst. apply Hf. Qed.

Lemma frame_on_files {A : Type} (f : Files -> (Py.exn + A) * Files) : frame (on_files f).
Proof.
  intros l r l' H. unfold on_files in H.
  destruct (f (files l)) as [r0 fs]. by inversion H.
Qed.

Lemma frame_bind {A B : Type} (m : M A) (f : A -> M B) :
  frame m -> (forall x, frame (f x)) -> frame (m ≫= f).
Proof.
  intros Hm Hf l r l' H. unfold mbind, M_bind in H.
  destruct (m l) as [[e | x] l1] eqn:Hml.
  - inversion H. subst. by apply (Hm _ _ _ Hml).
  - destruct (Hm _ _ _ Hml) as [Hi Hr]. destruct (Hf x _ _ _ H) as [Hi' Hr'].
    split; congruence.
Qed.

Lemma frame_weaken {A : Type} (m : M A) : frame m -> frame_unless_returns m.
Proof. intros Hm l r l' H. destruct (Hm _ _ _ H). auto. Qed.

Lemma frame_bind_unless {A B : Type} (m : M A) (f : A -> M B) :
  frame m -> (forall x, frame_unless_returns (f x)) -> frame_unless_returns (m ≫= f).
Proof.
  intros Hm Hf l r l' H. unfold mbind, M_bind in H.
  destruct (m l) as [[e | x] l1] eqn:Hml.
  - inversion H. subst. destruct (Hm _ _ _ Hml). auto.
  - destruct (Hm _ _ _ Hml) as [Hi Hr]. destruct (Hf x _ _ _ H) as [Hi' Hr'].
    split; [congruence |]. destruct Hr' as [Hr' | Hr']; [left; congruence | by right].
Qed.

Lemma frame_unless_then_total {A B : Type} (m : M A) (f : A -> M B) :
  frame_unless_returns m -> (forall x, frame (f x)) -> (forall x, total (f x)) ->
  frame_unless_returns (m ≫= f).
Proof.
  intros Hm Hf Ht l r l' H. unfold mbind, M_bind in H.
  destruct (m l) as [[e | x] l1] eqn:Hml.
  - inversion H. subst. destruct (Hm _ _ _ Hml) as [Hi [Hr | [x Hx]]]; [auto | done].
  - destruct (Hm _ _ _ Hml) as [Hi _]. destruct (Hf x _ _ _ H) as [Hi' _].
    split; [congruence |]. right.
    destruct (Ht x l1) as (y & l2 & Hy). rewrite Hy in H. inversion H. eauto.
Qed.

Lemma total_modify (f : locals -> locals) : total (modify f).
Proof. intros l. by eexists _, _. Qed.

Lemma total_bind {A B : Type} (m : M A) (f : A -> M B) :
  total m -> (forall x, total (f x)) -> total (m ≫= f).
Proof.
  intros Hm Hf l. destruct (Hm l) as (x & l1 & Hx).
  unfold mbind, M_bind. rewrite Hx. apply Hf.
Qed.

Section Facts.

Variable system_prompt : string.
Variable context_summary : State -> gmap string string -> string.
Variable reflection_prompt : State -> gmap string string -> string.
Variable json_loads : string -> Py.exn + Py.val.
Variable json_dumps : Py.val -> string.
Variable sm : StateManager.

Abbreviation tool_calls := (run_tool_calls json_loads json_dumps sm).
Abbreviation body :=
  (iteration_body system_prompt context_summary reflection_prompt json_loads json_dumps sm).
Abbreviation step :=
  (iteration_step system_prompt context_summary reflection_prompt json_loads json_dumps sm).
Abbreviation loop :=
  (run_loop system_prompt context_summary reflection_prompt json_loads json_dumps sm).

(** The tool calls of an iteration change [self.running] only by the
    assignment after [complete_goal], which ends the loop over the calls. *)
Lemma run_tool_calls_frame (e : iter_env) (calls : list tool_call) (k : nat) :
  frame_unless_returns (tool_calls e k calls).
Proof.
  revert k. induction calls as [| tc calls IH]; intros k; simpl.
  - apply frame_weaken, frame_ret.
  - apply frame_bind_unless; [apply frame_lift | intros function_args].
    apply frame_bind_unless; [apply frame_on_files | intros result].
    apply frame_bind_unless; [by apply frame_modify | intros _].
    apply frame_bind_unless; [by apply frame_modify | intros _].
    apply frame_bind_unless; [apply frame_lift | intros _].
    apply frame_bind_unless; [apply frame_lift | intros _].
    destruct (String.eqb (tc_name tc) "complete_goal").
    + apply frame_bind_unless; [apply frame_lift | intros _].
      intros l r l' H. inversion H. split; [done | eauto].
    + apply IH.
Qed.

(** An iteration never changes [iteration], and it leaves [self.running]
    as it is when it raises. *)
Lemma iteration_body_frame (e : iter_env) : frame_unless_returns (body e).
Proof.
  unfold iteration_body.
  apply frame_bind_unless; [apply frame_gets | intros reflect].
  apply frame_bind_unless.
  { destruct reflect; [| apply frame_ret].
    apply frame_bind; [by apply frame_modify | intros _].
    apply frame_bind; [by apply frame_modify | intros _].
    by apply frame_modify. }
  intros _.
  apply frame_bind_unless; [apply frame_gets | intros context].
  apply frame_bind_unless.
  { apply frame_modify. intros l.
    by destruct ((iteration l =? 1) || (actions_since_reflection (state l) =? 0)). }
  intros _.
  apply frame_bind_unless; [apply frame_lift | intros assistant].
  apply frame_bind_unless; [by apply frame_modify | intros _].
  apply frame_unless_then_total.
  - apply run_tool_calls_frame.
  - intros _. apply frame_bind; [by apply frame_modify | intros _].
    apply frame_modify. intros l. by destruct (20 <? length (messages l))%nat.
  - intros _. apply total_bind; [apply total_modify | intros _; apply total_modify].
Qed.

Lemma iteration_step_iteration (e : iter_env) (l : locals) :
  iteration (step e l).2 = iteration l.
Proof.
  unfold iteration_step.
  destruct (body e l) as [[[| text] | x] l'] eqn:Hbody;
    destruct (iteration_body_frame e _ _ _ Hbody) as [Hi _]; simpl; done.
Qed.

(** The loop of [run] never runs out of fuel: more fuel than
    [max_iterations - iteration] changes nothing. *)
Lemma run_loop_fuel (env : Z -> iter_env) (max_iterations : Z) (fuel : nat) (l : locals) :
  (Z.to_nat (max_iterations - iteration l) <= fuel)%nat ->
  loop fuel env max_iterations l =
  loop (Z.to_nat (max_iterations - iteration l)) env max_iterations l.
Proof.
  revert l. induction fuel as [| fuel IH]; intros l Hfuel.
  - by replace (Z.to_nat (max_iterations - iteration l)) with 0%nat by lia.
  - destruct (Z.ltb_spec (iteration l) max_iterations) as [Hlt | Hge].
    + destruct (Z.to_nat (max_iterations - iteration l)) as [| n] eqn:Hn; [lia |].
      simpl. destruct (running l); simpl; [| done].
      apply Z.ltb_lt in Hlt as Hlt'. rewrite Hlt'.
      pose proof (iteration_step_iteration
                    (env (iteration l + 1)) (set_iteration (iteration l + 1) l)) as Hi.
      destruct (step (env (iteration l + 1)) (set_iteration (iteration l + 1) l))
        as [[|] l2]; [| done].
      simpl in Hi.
      rewrite IH by lia. f_equal. lia.
    + replace (Z.to_nat (max_iterations - iteration l)) with 0%nat by lia.
      simpl. apply Z.ltb_ge in Hge. rewrite Hge. by rewrite andb_false_r.
Qed.

(** An exception raised inside a dispatched tool does not leave
    [_execute_tool]: the call returns a failed result. *)
Lemma execute_tool_catches (function_name : string) (args : Py.val) (ext : tool_effect)
    (fs fs' : Files) (raised : string) :
  dispatch sm function_name args ext fs = (inl (Py.Exception raised), fs') ->
  _execute_tool sm function_name args ext fs =
  (inr (tool_result false ("Tool execution failed: " +:+ raised)
          ["Try a different approach"]), fs').
Proof. intros H. unfold _execute_tool. by rewrite H. Qed.

(** [_execute_tool] raises nothing but a [KeyboardInterrupt]. *)
Lemma execute_tool_raises_only_interrupt (function_name : string) (args : Py.val)
    (ext : tool_effect) (fs fs' : Files) (e : Py.exn) :
  _execute_tool sm function_name args ext fs = (inl e, fs') -> e = Py.KeyboardInterrupt.
Proof.
  unfold _execute_tool.
  destruct (dispatch sm function_name args ext fs) as [[[| text] | result] fs1];
    intros H; by inversion H.
Qed.

(** Such a call is recorded under its own descriptor, as a failure, and the
    loop over the tool calls goes on with the next call. *)
Lemma tool_exception_recorded_under_tool (e : iter_env) (k : nat) (tc : tool_call)
    (rest : list tool_call) (l : locals) (args : Py.val) (raised : string) (fs : Files) :
  json_loads (tc_arguments tc) = inr args ->
  dispatch sm (tc_name tc) args (tool (call_envs e k)) (files l)
    = (inl (Py.Exception raised), fs) ->
  String.eqb (tc_name tc) "complete_goal" = false ->
  exists l',
    tool_calls e k (tc :: rest) l = tool_calls e (S k) rest l' /\
    last (recent_actions (state l')) =
      Some {| timestamp := now_recorded (call_envs e k);
              action := descriptor json_dumps (tc_name tc) args;
              success := Py.VBool false;
              summary := Py.VStr ("Tool execution failed: " +:+ raised) |} /\
    files l' = fs.
Proof.
  intros Hargs Hdispatch Hname.
  apply execute_tool_catches in Hdispatch.
  eexists. split.
  - cbn -[add_action]. unfold mbind, M_bind, lift, on_files.
    rewrite Hargs, Hdispatch. cbn -[add_action]. rewrite Hname. reflexivity.
  - cbn -[add_action]. split; [| done]. by rewrite add_action_last.
Qed.

(** C7, as amended.  When an exception other than a user interrupt leaves
    the [try] body of an iteration of [run], the handler appends, with
    [add_action], a failed entry whose descriptor is "error", saves the
    state, and the loop goes on with its next test, [self.running] still
    true. *)
Theorem exception_recorded_as_error (env : Z -> iter_env) (max_iterations : Z)
    (fuel : nat) (l0 l1 : locals) (text : string) :
  running l0 = true ->
  iteration l0 < max_iterations ->
  body (env (iteration l0 + 1)) (set_iteration (iteration l0 + 1) l0)
    = (inl (Py.Exception text), l1) ->
  exists l2,
    step (env (iteration l0 + 1)) (set_iteration (iteration l0 + 1) l0)
      = (NextIteration, l2) /\
    last (recent_actions (state l2)) =
      Some {| timestamp := now_error (env (iteration l0 + 1));
              action := "error";
              success := Py.VBool false;
              summary := Py.VStr ("Error: " +:+ text) |} /\
    total_actions (state l2) = total_actions (state l1) + 1 /\
    snapshots (files l2) !! state_file sm = Some (state l2) /\
    running l2 = true /\
    iteration l2 = iteration l0 + 1 /\
    loop (S fuel) env max_iterations l0 = loop fuel env max_iterations l2.
Proof.
  intros Hrun Hlt Hbody.
  destruct (iteration_body_frame _ _ _ _ Hbody) as [Hi [Hr | [x Hx]]]; [| done].
  simpl in Hi, Hr.
  eexists. split_and!.
  - unfold iteration_step. rewrite Hbody. reflexivity.
  - cbn -[add_action]. by rewrite add_action_last.
  - done.
  - simpl. apply lookup_insert_eq.
  - simpl. congruence.
  - simpl. congruence.
  - simpl. rewrite Hrun. apply Z.ltb_lt in Hlt. rewrite Hlt. simpl.
    unfold iteration_step. rewrite Hbody. reflexivity.
Qed.

End Facts.

(** An iteration whose decision request fails. *)
Lemma exception_recorded_as_error_witness :
  exists l2,
    iteration_step Demo.system_prompt Demo.context_summary Demo.reflection_prompt
      Demo.json_loads Demo.json_dumps Demo.manager
      Demo.failing_request (set_iteration 1 Demo.fresh) = (NextIteration, l2) /\
    action <$> recent_actions (state l2) = ["error"] /\
    running l2 = true.
Proof.
  destruct (exception_recorded_as_error
              Demo.system_prompt Demo.context_summary Demo.reflection_prompt
              Demo.json_loads Demo.json_dumps Demo.manager
              (fun _ => Demo.failing_request) 5 4 Demo.fresh
              (set_messages
                 [Msg "system" Demo.system_prompt;
                  Msg "user" (Demo.context_summary (state Demo.fresh) ∅)]
                 (set_iteration 1 Demo.fresh))
              "Connection error.")
    as (l2 & Hstep & _ & _ & _ & Hrunning & _).
  - reflexivity.
  - reflexivity.
  - reflexivity.
  - exists l2. split; [exact Hstep |]. split; [| exact Hrunning].
    simpl in Hstep. unfold iteration_step in Hstep. simpl in Hstep.
    inversion Hstep. reflexivity.
Defined.

(** C7, the claim as stated fails.  The decision is a call of [read_file]
    without its [file_path]: reading the argument raises [KeyError] while
    the tool is dispatched, [_execute_tool] catches it, and the entry that
    [run] appends carries the descriptor of the call, not "error". *)
Lemma dispatch_exception_not_recorded_as_error :
  (dispatch Demo.manager "read_file" (Py.VDict []) Demo.quiet_tool Demo.no_files).1
    = inl (Py.Exception "'file_path'") /\
  (let l' :=
     (iteration_step Demo.system_prompt Demo.context_summary Demo.reflection_prompt
        Demo.json_loads Demo.json_dumps Demo.manager
        Demo.missing_argument (set_iteration 1 Demo.fresh)).2 in
   action <$> recent_actions (state l') = ["read_file({})"] /\
   success <$> recent_actions (state l') = [Py.VBool false] /\
   ~ "error" ∈ (action <$> recent_actions (state l'))).
Proof.
  split; [reflexivity |].
  cbv zeta. split; [reflexivity |]. split; [reflexivity |].
  intros Hin. apply list_elem_of_singleton in Hin. discriminate Hin.
Qed.

End AgentV2Facts.

(** ** The session supervisor *)

Module ContinuousFacts.

Import Continuous.

(** [run_session] lets nothing but a user interrupt through. *)
Lemma run_session_raises_only_interrupt (session_start now : Q)
    (agent : Py.exn + StateManager.State) (e : Py.exn) :
  run_session session_start agent now = inl e -> e = Py.KeyboardInterrupt.
Proof.
  unfold run_session. destruct agent as [[| text] | state]; intros H; by inversion H.
Qed.

(** The session after which the loop is left, when it is left through an
    exception. *)
Lemma session_loop_propagates_from_check (end_time : Q) (envs : list session_env)
    (r : run_state) (text : string) :
  (session_loop end_time envs r).1 = Propagated text ->
  exists e, e ∈ envs /\ state_file_after e = Some (inl (Py.Exception text)).
Proof.
  revert r. induction envs as [| e envs IH]; intros r; simpl; [done |].
  destruct (Py.Qltb (t_loop_check e) end_time); [| done].
  assert (forall r2 : run_state,
            (match completion_check (state_file_after e) with
             | Some exit => (exit, r2)
             | None =>
                 if Py.Qltb (t_delay_check e) end_time && sleep_interrupted e
                 then (UserInterrupt, r2)
                 else session_loop end_time envs r2
             end).1 = Propagated text ->
            exists e0, e0 ∈ e :: envs /\
                       state_file_after e0 = Some (inl (Py.Exception text))) as Hcheck.
  { intros r2. unfold completion_check.
    destruct (state_file_after e) as [[[| raised] | state] |] eqn:Hfound; simpl.
    - done.
    - intros [= ->]. exists e. split; [apply list_elem_of_here | done].
    - destruct (String.eqb (StateManager.current_phase state) "complete"); [done |].
      destruct (Py.Qltb (t_delay_check e) end_time && sleep_interrupted e); [done |].
      intros H. destruct (IH _ H) as (e0 & Hin & He0).
      exists e0. split; [by apply list_elem_of_further | done].
    - destruct (Py.Qltb (t_delay_check e) end_time && sleep_interrupted e); [done |].
      intros H. destruct (IH _ H) as (e0 & Hin & He0).
      exists e0. split; [by apply list_elem_of_further | done]. }
  destruct (agent_outcome e) as [[| raised] | state]; simpl; [done | apply Hcheck ..].
Qed.

(** A session that raises an exception other than a user interrupt gives a
    failed result instead of an exception; the supervisor counts it in
    [sessions_failed], appends its text to [errors] and writes the stats.
    What follows is the test on [.agent_state.json]: when it raises nothing
    and finds no completion marker, and the user does not interrupt the
    delay, the loop goes on with the next test of the duration budget. *)
Lemma failed_session_recorded (end_time : Q) (e : session_env)
    (rest : list session_env) (r : run_state) (text : string) :
  agent_outcome e = inl (Py.Exception text) ->
  (t_loop_check e < end_time)%Q ->
  run_session (t_session_start e) (agent_outcome e) (t_session_end e) =
    inr {| success := false;
           duration := (t_session_end e - t_session_start e)%Q;
           total_actions := 0;
           error := Some text |} /\
  (exists r',
     sessions_failed (stats r') = sessions_failed (stats r) + 1 /\
     sessions_completed (stats r') = sessions_completed (stats r) /\
     errors (stats r') =
       errors (stats r) ++ [{| err_timestamp := now_error e; err_error := Some text |}] /\
     persisted r' = persisted r ++ [stats r'] /\
     sessions_started r' = S (sessions_started r) /\
     session_loop end_time (e :: rest) r =
       match completion_check (state_file_after e) with
       | Some exit => (exit, r')
       | None =>
           if Py.Qltb (t_delay_check e) end_time && sleep_interrupted e
           then (UserInterrupt, r')
           else session_loop end_time rest r'
       end).
Proof.
  intros Hagent Hbudget. split.
  - by rewrite Hagent.
  - eexists. split_and!; cycle 5.
    + simpl. apply PyFacts.Qltb_lt in Hbudget. rewrite Hbudget, Hagent. simpl.
      reflexivity.
    + done.
    + done.
    + done.
    + done.
    + done.
Qed.

(** C8. A session fails with an exception, and the test on
    [.agent_state.json] that follows raises an exception too, as it does
    when the session failed because that file does not parse.  The failed
    session is counted, its text logged and the stats written, and then the
    run is aborted: the exception of the test leaves the loop of
    [run_continuous], whatever is left of the duration budget and whatever
    turns would follow, and no further session is started.  The claim asks
    for the next session there. *)
Theorem failed_session_aborts_the_run (goal_text : string) (hours : Z) (start_time : Q)
    (started : string) (e : session_env) (rest : list session_env) (final_time : Q)
    (ended : string) (text raised : string) :
  agent_outcome e = inl (Py.Exception text) ->
  state_file_after e = Some (inl (Py.Exception raised)) ->
  (t_loop_check e < start_time + inject_Z (hours * 3600))%Q ->
  exists r,
    run_continuous goal_text hours start_time started (e :: rest) final_time ended =
      (Propagated raised, r) /\
    sessions_started r = 1%nat /\
    sessions_failed (stats r) = 1 /\
    sessions_completed (stats r) = 0 /\
    errors (stats r) = [{| err_timestamp := now_error e; err_error := Some text |}] /\
    length (persisted r) = 2%nat.
Proof.
  intros Hagent Hfound Hbudget. unfold run_continuous. cbv zeta.
  destruct (failed_session_recorded (start_time + inject_Z (hours * 3600)) e rest
              {| stats :=
                   {| goal := goal_text; started_at := started; duration_hours := hours;
                      sessions_completed := 0; sessions_failed := 0;
                      stats_total_actions := 0; total_runtime := 0%Q; errors := [];
                      ended_at := None |};
                 persisted := []; sessions_started := 0 |} text Hagent Hbudget)
    as (_ & r' & Hfailed & Hcompleted & Herrors & Hpersisted & Hstarted & Hloop).
  rewrite Hloop, Hfound. cbn [completion_check].
  eexists. split; [reflexivity |].
  cbn [finalize sessions_started stats sessions_failed sessions_completed errors persisted].
  rewrite Hstarted, Hfailed, Hcompleted, Herrors, length_app, Hpersisted.
  done.
Qed.

Lemma failed_session_aborts_the_run_witness :
  exists r,
    run_continuous "build it" 24 0 "2025-01-01T00:00:00Z"
      [Demo.unreadable_state_session; Demo.crashing_session] 104 "2025-01-01T00:01:44Z" =
      (Propagated "Expecting value: line 1 column 1 (char 0)", r) /\
    sessions_started r = 1%nat /\
    sessions_failed (stats r) = 1.
Proof.
  destruct (failed_session_aborts_the_run "build it" 24 0 "2025-01-01T00:00:00Z"
              Demo.unreadable_state_session [Demo.crashing_session] 104
              "2025-01-01T00:01:44Z" "Expecting value: line 1 column 1 (char 0)"
              "Expecting value: line 1 column 1 (char 0)" eq_refl eq_refl eq_refl)
    as (r & Hrun & Hstarted & Hfailed & _).
  exists r. split_and!; [exact Hrun | exact Hstarted | exact Hfailed].
Defined.

(** C3, as amended.  With a budget of zero hours the first test of the loop
    compares the clock with the start time itself, so, the clock not
    running backwards, no session is started: the run ends on the duration
    test with its counters at zero and writes the final stats once. *)
Theorem zero_budget_runs_no_session (goal_text : string) (start_time : Q)
    (started : string) (e : session_env) (rest : list session_env) (final_time : Q)
    (ended : string) :
  (start_time <= t_loop_check e)%Q ->
  exists r,
    run_continuous goal_text 0 start_time started (e :: rest) final_time ended
      = (BudgetExpired, r) /\
    sessions_started r = 0%nat /\
    sessions_completed (stats r) = 0 /\
    sessions_failed (stats r) = 0 /\
    ended_at (stats r) = Some ended /\
    persisted r = [stats r].
Proof.
  intros Hclock. unfold run_continuous. cbn [session_loop].
  assert (Py.Qltb (t_loop_check e) (start_time + inject_Z (0 * 3600)) = false) as ->.
  { apply PyFacts.Qltb_ge. change (inject_Z (0 * 3600)) with 0%Q. lra. }
  eexists. split; [reflexivity |]. done.
Qed.

Lemma zero_budget_runs_no_session_witness :
  exists r,
    run_continuous "build it" 0 100 "2025-01-01T00:00:00Z"
      [Demo.crashing_session] 100 "2025-01-01T00:00:00Z" = (BudgetExpired, r) /\
    sessions_started r = 0%nat.
Proof.
  destruct (zero_budget_runs_no_session "build it" 100 "2025-01-01T00:00:00Z"
              Demo.crashing_session [] 100 "2025-01-01T00:00:00Z")
    as (r & Hrun & Hstarted & _).
  - discriminate.
  - exists r. split; [exact Hrun | exact Hstarted].
Defined.

(** C3, the claim as stated fails: a run with a budget of zero hours whose
    clock reads 100 at the start and at the first test of the loop executes
    no session. *)
Lemma zero_budget_executes_no_session :
  ~ (1 <= sessions_started
            (run_continuous "build it" 0 100 "2025-01-01T00:00:00Z"
               [Demo.crashing_session] 100 "2025-01-01T00:00:00Z").2)%nat.
Proof. simpl. lia. Qed.

End ContinuousFacts.

(** * Further properties of the sources *)

(** ** Substrings *)

Module PyStrFacts.

Lemma append_cons (x : Ascii.ascii) (a b : string) :
  String x a +:+ b = String x (a +:+ b).
Proof. reflexivity. Qed.

Lemma append_assoc (a b c : string) : (a +:+ b) +:+ c = a +:+ b +:+ c.
Proof.
  induction a as [| x a IH]; [done |].
  rewrite !append_cons. by rewrite IH.
Qed.

Lemma is_prefix_spec (p s : string) :
  PyStr.is_prefix p s = true <-> exists q, s = p +:+ q.
Proof.
  revert s. induction p as [| a p IH]; intros s; simpl.
  - split; [intros _; by exists s | done].
  - destruct s as [| b s].
    + split; [done | intros [q Hq]; rewrite append_cons in Hq; discriminate].
    + rewrite andb_true_iff, Ascii.eqb_eq, IH. split.
      * intros [-> [q ->]]. by exists q.
      * intros [q Hq]. rewrite append_cons in Hq. injection Hq as -> ->. eauto.
Qed.

Lemma contains_spec (sub s : string) :
  PyStr.contains sub s = true <-> exists a b, s = a +:+ sub +:+ b.
Proof.
  induction s as [| x s IH]; simpl.
  - rewrite orb_false_r, is_prefix_spec. split.
    + intros [q Hq]. by exists EmptyString, q.
    + intros (a & b & Hab). destruct a; [by exists b |].
      rewrite append_cons in Hab. discriminate.
  - rewrite orb_true_iff, is_prefix_spec, IH. split.
    + intros [[q Hq] | (a & b & Hab)].
      * by exists EmptyString, q.
      * exists (String x a), b. rewrite append_cons. by rewrite Hab.
    + intros (a & b & Hab). destruct a as [| y a].
      * left. by exists b.
      * right. rewrite append_cons in Hab. injection Hab as -> ->. eauto.
Qed.

(** A text that contains a word contains every part of the word. *)
Lemma contains_part (before part after s : string) :
  PyStr.contains (before +:+ part +:+ after) s = true -> PyStr.contains part s = true.
Proof.
  rewrite !contains_spec. intros (a & b & ->).
  exists (a +:+ before), (after +:+ b). by rewrite !append_assoc.
Qed.

End PyStrFacts.

(** ** The reliability monitor, continued *)

Module ReliabilityMore.

Import Reliability.

Lemma record_all_app (m : ReliabilityMonitor) (calls1 calls2 : list call) :
  record_all m (calls1 ++ calls2) = record_all (record_all m calls1) calls2.
Proof. unfold record_all. apply foldl_app. Qed.

(** A list with at least three elements ends with three elements. *)
Lemma last_three {A : Type} (l : list A) :
  (3 <= length l)%nat -> exists pre a b c, l = pre ++ [a; b; c].
Proof.
  intros Hlen. exists (take (length l - 3) l).
  pose proof (take_drop (length l - 3) l) as Hsplit.
  assert (length (drop (length l - 3) l) = 3%nat) as Hdrop
    by (rewrite length_drop; lia).
  destruct (drop (length l - 3) l) as [| a [| b [| c [| d rest]]]]; try done.
  by exists a, b, c.
Qed.

(** X1. After any calls on a fresh monitor the ring buffer holds the last
    ten descriptors recorded, oldest first, and never more than ten. *)
Theorem ring_buffer_keeps_last_ten (t0 : Q) (calls : list call) :
  items (recent_actions (record_all (init t0) calls)) =
    drop (length calls - 10) (c_action <$> calls) /\
  (length (items (recent_actions (record_all (init t0) calls))) <= 10)%nat /\
  maxlen (recent_actions (record_all (init t0) calls)) = 10%nat.
Proof.
  split_and!.
  - apply ReliabilityFacts.record_all_items.
  - rewrite ReliabilityFacts.record_all_items, length_drop, length_fmap. lia.
  - by pose proof (ReliabilityFacts.record_all_constants (init t0) calls)
      as (_ & _ & _ & ->).
Qed.

(** X2. On a monitor built by [__init__] and [record_action],
    [detect_loop] returns a descriptor exactly when the last three
    descriptors recorded are that descriptor; in particular it needs three
    samples and never returns an "alternating" text. *)
Theorem detect_loop_exactly_three_equal (t0 : Q) (calls : list call) (s : string) :
  detect_loop (record_all (init t0) calls) = Some s <->
  exists pre, c_action <$> calls = pre ++ [s; s; s].
Proof.
  split.
  - intros Hloop.
    destruct (Nat.lt_ge_cases (length calls) 3) as [Hfew | Hmany].
    + by rewrite ReliabilityFacts.detect_loop_too_few in Hloop.
    + destruct (last_three (c_action <$> calls)) as (pre & a & b & c & Heq);
        [by rewrite length_fmap |].
      rewrite (ReliabilityFacts.detect_loop_recorded t0 calls pre a b c Heq) in Hloop.
      case_bool_decide as Habc; [| done].
      destruct Habc as [-> ->]. injection Hloop as ->. by exists pre.
  - intros [pre Heq]. by apply (ReliabilityFacts.detect_loop_repeated t0 calls pre).
Qed.

(** Calls that are not flagged as progress add up their tokens. *)
Lemma record_all_adds_tokens (m : ReliabilityMonitor) (calls : list call) :
  Forall (fun c => c_made_progress c = false) calls ->
  total_tokens_since_progress (record_all m calls) =
  total_tokens_since_progress m + foldr Z.add 0 (c_tokens_used <$> calls).
Proof.
  revert m. induction calls as [| c calls IH]; intros m Hall.
  - simpl. lia.
  - apply Forall_cons in Hall as [Hc Hcalls].
    change (record_all m (c :: calls)) with
      (record_all (record_action m (c_action c) (c_made_progress c)
                     (c_tokens_used c) (c_now c)) calls).
    rewrite IH by done. unfold record_action. rewrite Hc, fmap_cons.
    cbn [foldr total_tokens_since_progress]. lia.
Qed.

(** X3. The watchdog counts from the last call flagged as progress: after
    such a call at time [t], followed by calls that are not flagged,
    [check_watchdog] is true exactly when more than 1800 seconds have passed
    since [t]. *)
Theorem watchdog_counts_from_last_progress (t0 : Q) (before after : list call)
    (c : call) (now : Q) :
  c_made_progress c = true ->
  Forall (fun c' => c_made_progress c' = false) after ->
  check_watchdog (record_all (init t0) (before ++ c :: after)) now = true <->
  (1800 < now - c_now c)%Q.
Proof.
  intros Hc Hafter. unfold check_watchdog.
  pose proof (ReliabilityFacts.record_all_constants (init t0) (before ++ c :: after))
    as (_ & -> & _).
  rewrite record_all_app.
  change (record_all (record_all (init t0) before) (c :: after)) with
    (record_all (record_action (record_all (init t0) before) (c_action c)
                   (c_made_progress c) (c_tokens_used c) (c_now c)) after).
  rewrite (ReliabilityFacts.record_all_no_progress _ _ Hafter).
  unfold record_action. rewrite Hc. simpl. apply PyFacts.Qltb_lt.
Qed.

Lemma watchdog_counts_from_last_progress_witness :
  check_watchdog
    (record_all (init 0)
       ([plain "a" 10] ++
        {| c_action := "b"; c_made_progress := true; c_tokens_used := 5; c_now := 5000 |}
        :: [plain "c" 5010])) 6801 = true.
Proof.
  apply (watchdog_counts_from_last_progress 0 [plain "a" 10]
           [plain "c" 5010]
           {| c_action := "b"; c_made_progress := true; c_tokens_used := 5;
              c_now := 5000 |} 6801).
  - reflexivity.
  - repeat constructor.
  - reflexivity.
Defined.

(** X4. The accumulator holds the tokens of the calls made since the last
    call flagged as progress, that call excluded; without such a call it
    holds the tokens of all calls. *)
Theorem tokens_count_since_last_progress (t0 : Q) (before after : list call) (c : call) :
  Forall (fun c' => c_made_progress c' = false) after ->
  (c_made_progress c = true ->
   total_tokens_since_progress (record_all (init t0) (before ++ c :: after)) =
   foldr Z.add 0 (c_tokens_used <$> after)) /\
  total_tokens_since_progress (record_all (init t0) after) =
  foldr Z.add 0 (c_tokens_used <$> after).
Proof.
  intros Hafter. split.
  - intros Hc. rewrite record_all_app.
    change (record_all (record_all (init t0) before) (c :: after)) with
      (record_all (record_action (record_all (init t0) before) (c_action c)
                     (c_made_progress c) (c_tokens_used c) (c_now c)) after).
    rewrite record_all_adds_tokens by done.
    unfold record_action. rewrite Hc. simpl. lia.
  - rewrite record_all_adds_tokens by done. simpl. lia.
Qed.

Lemma tokens_count_since_last_progress_witness :
  total_tokens_since_progress
    (record_all (init 0)
       ([{| c_action := "a"; c_made_progress := false; c_tokens_used := 70000; c_now := 1 |}]
        ++ {| c_action := "b"; c_made_progress := true; c_tokens_used := 9; c_now := 2 |}
        :: [{| c_action := "c"; c_made_progress := false; c_tokens_used := 40; c_now := 3 |};
            {| c_action := "d"; c_made_progress := false; c_tokens_used := 2; c_now := 4 |}]))
  = 42.
Proof.
  destruct (tokens_count_since_last_progress 0
              [{| c_action := "a"; c_made_progress := false; c_tokens_used := 70000;
                  c_now := 1 |}]
              [{| c_action := "c"; c_made_progress := false; c_tokens_used := 40;
                  c_now := 3 |};
               {| c_action := "d"; c_made_progress := false; c_tokens_used := 2;
                  c_now := 4 |}]
              {| c_action := "b"; c_made_progress := true; c_tokens_used := 9;
                 c_now := 2 |}) as [Hsince _].
  - repeat constructor.
  - rewrite Hsince; reflexivity.
Defined.

(** X5. [get_status] and [should_restart] agree when they read the same
    clock: a restart is asked exactly when the status shows a loop that is
    a true value, or a watchdog or a token usage that is not ok, and the
    reason names the first of these in that order. *)
Theorem status_agrees_with_restart (m : ReliabilityMonitor) (now_first now_check now_report : Q) :
  let s := Status.get_status m now_first now_check in
  let d := should_restart m now_check now_report in
  should_restart_flag d =
    Py.truthy_opt (Status.st_loop_detected s) || negb (Status.st_watchdog_ok s)
      || negb (Status.st_token_usage_ok s) /\
  reason d =
    (if Py.truthy_opt (Status.st_loop_detected s) then Some "loop_detected"
     else if negb (Status.st_watchdog_ok s) then Some "watchdog_timeout"
     else if negb (Status.st_token_usage_ok s) then Some "token_waste"
     else None) /\
  Status.st_recent_actions s = items (recent_actions m) /\
  Status.st_tokens_since_progress s = total_tokens_since_progress m.
Proof.
  cbv zeta. unfold should_restart, Status.get_status. simpl.
  destruct (Py.truthy_opt (detect_loop m)); [done |].
  destruct (check_watchdog m now_check); [done |].
  by destruct (check_token_waste m).
Qed.

End ReliabilityMore.

(** ** The progress tracker *)

Module TrackerFacts.

Import Tracker.

Section Facts.

Variable lower : string -> string.

Abbreviation run_ops := (apply_all lower).

Lemma apply_all_snoc (ops : list op) (o : op) :
  run_ops (ops ++ [o]) = apply lower (run_ops ops) o.
Proof. unfold apply_all. by rewrite foldl_app. Qed.

(** The milestones carry the clock readings of the calls that are not
    [record_error], in the order of the calls. *)
Lemma milestone_times (ops : list op) :
  m_timestamp <$> milestones (run_ops ops) = omap op_time ops.
Proof.
  induction ops as [| o ops IH] using rev_ind; [done |].
  rewrite apply_all_snoc, omap_app.
  destruct o; simpl; rewrite ?fmap_app, ?IH; simpl; by rewrite ?app_nil_r.
Qed.

(** X6. [made_progress_recently(window)] is true exactly when one of the
    recording calls other than [record_error] took place less than
    [window] seconds before the clock reading; on a fresh tracker it is
    false, and errors never count as progress. *)
Theorem progress_is_a_recent_milestone (ops : list op) (window : Z) (now : Q) :
  made_progress_recently (run_ops ops) window now = true <->
  exists o t, o ∈ ops /\ op_time o = Some t /\ (now - inject_Z window < t)%Q.
Proof.
  unfold made_progress_recently. cbv zeta.
  rewrite Nat.ltb_lt. split.
  - intros Hlen.
    destruct (filter (fun m => Py.Qltb (now - inject_Z window) (m_timestamp m) = true)
                (milestones (run_ops ops))) as [| m rest] eqn:Hfilter;
      [simpl in Hlen; lia |].
    assert (m ∈ filter (fun m => Py.Qltb (now - inject_Z window) (m_timestamp m) = true)
                  (milestones (run_ops ops))) as Hin
      by (rewrite Hfilter; apply list_elem_of_here).
    apply list_elem_of_filter in Hin as [Hrecent Hm].
    assert (m_timestamp m ∈ omap op_time ops) as Ht.
    { rewrite <- milestone_times. by apply list_elem_of_fmap_2. }
    apply list_elem_of_omap in Ht as (o & Ho & Htime).
    exists o, (m_timestamp m). split_and!; [done | done |].
    by apply PyFacts.Qltb_lt.
  - intros (o & t & Ho & Htime & Hrecent).
    assert (t ∈ m_timestamp <$> milestones (run_ops ops)) as Ht.
    { rewrite milestone_times. apply list_elem_of_omap. eauto. }
    apply list_elem_of_fmap in Ht as (m & -> & Hm).
    assert (m ∈ filter (fun m => Py.Qltb (now - inject_Z window) (m_timestamp m) = true)
                  (milestones (run_ops ops))) as Hin.
    { apply list_elem_of_filter. split; [| done]. by apply PyFacts.Qltb_lt. }
    destruct (filter _ _); [by apply elem_of_nil in Hin | simpl; lia].
Qed.

Lemma tracker_sets (ops : list op) :
  files_created (run_ops ops) = list_to_set (omap op_created ops) /\
  files_modified (run_ops ops) = list_to_set (omap op_modified ops) /\
  commands_run (run_ops ops) = omap op_command ops /\
  errors_encountered (run_ops ops) = Z.of_nat (length (filter (fun o => is_error o = true) ops)).
Proof.
  induction ops as [| o ops (IHc & IHm & IHr & IHe)] using rev_ind.
  - split_and!; done.
  - rewrite apply_all_snoc, !omap_app, filter_app, length_app, !list_to_set_app_L.
    destruct o; simpl; rewrite ?IHc, ?IHm, ?IHr, ?IHe, ?app_nil_r;
      rewrite ?(right_id_L (∅ : gset string) (∪));
      split_and!; try done; try apply (comm_L (∪)); try lia.
Qed.

(** X7. The summary counts distinct paths and all calls: [files_created]
    is the number of different paths passed to [record_file_created],
    [total_milestones] the number of recording calls other than
    [record_error], and [errors_encountered] the number of [record_error]
    calls; recording a path that was already recorded adds a milestone and
    leaves the count of files as it is. *)
Theorem summary_counts (ops : list op) (now : Q) :
  s_files_created (get_summary (run_ops ops) now) =
    size (list_to_set (omap op_created ops) : gset string) /\
  s_files_modified (get_summary (run_ops ops) now) =
    size (list_to_set (omap op_modified ops) : gset string) /\
  s_commands_run (get_summary (run_ops ops) now) = length (omap op_command ops) /\
  s_total_milestones (get_summary (run_ops ops) now) = length (omap op_time ops) /\
  s_errors_encountered (get_summary (run_ops ops) now) =
    Z.of_nat (length (filter (fun o => is_error o = true) ops)) /\
  (forall filepath t1 t2,
     FileCreated filepath t1 ∈ ops ->
     s_files_created (get_summary (run_ops (ops ++ [FileCreated filepath t2])) now) =
       s_files_created (get_summary (run_ops ops) now) /\
     s_total_milestones (get_summary (run_ops (ops ++ [FileCreated filepath t2])) now) =
       S (s_total_milestones (get_summary (run_ops ops) now))).
Proof.
  pose proof (tracker_sets ops) as (Hc & Hm & Hr & He).
  unfold get_summary. simpl. split_and!.
  - by rewrite Hc.
  - by rewrite Hm.
  - by rewrite Hr.
  - by rewrite <- milestone_times, length_fmap.
  - done.
  - intros filepath t1 t2 Hin. rewrite apply_all_snoc. simpl. split.
    + f_equal. rewrite Hc.
      assert (filepath ∈ (list_to_set (omap op_created ops) : gset string)) as Hold.
      { apply elem_of_list_to_set, list_elem_of_omap. by exists (FileCreated filepath t1). }
      apply subseteq_union_1_L. by apply singleton_subseteq_l.
    + rewrite length_app. simpl. lia.
Qed.

(** X8. [record_command_success] counts a command as a passed test exactly
    when its lower-cased text contains "test": the second test, for
    "pytest", never decides.  Whatever the command, it is appended to
    [commands_run] and gets one milestone. *)
Theorem command_is_test_iff_contains_test (t : ProgressTracker) (command output : string)
    (now : Q) :
  let t' := record_command_success lower t command output now in
  tests_passed t' =
    (if PyStr.contains "test" (lower command) then tests_passed t + 1 else tests_passed t) /\
  milestones t' =
    milestones t ++
    [{| m_type := if PyStr.contains "test" (lower command)
                  then "test_passed" else "command_success";
        m_key := "command"; m_subject := command; m_timestamp := now |}] /\
  commands_run t' = commands_run t ++ [command] /\
  errors_encountered t' = errors_encountered t.
Proof.
  cbv zeta. unfold record_command_success. simpl.
  assert (PyStr.contains "test" (lower command) || PyStr.contains "pytest" (lower command)
          = PyStr.contains "test" (lower command)) as ->; [| done].
  destruct (PyStr.contains "test" (lower command)) eqn:Htest; [done |].
  destruct (PyStr.contains "pytest" (lower command)) eqn:Hpytest; [| done].
  apply (PyStrFacts.contains_part "py" "test" EmptyString) in Hpytest. congruence.
Qed.

End Facts.

End TrackerFacts.

(** ** The state store, continued *)

Module StoreFacts.

Import StateManager.

(** The keys of [file_map] are the four kinds. *)
Lemma file_map_lookup (sm : StateManager) (kind : string) :
  file_map sm !! kind =
  if decide (kind = "blockers") then Some (blockers_file sm)
  else if decide (kind = "decisions") then Some (decisions_file sm)
  else if decide (kind = "progress") then Some (progress_file sm)
  else if decide (kind = "goals") then Some (goals_file sm)
  else None.
Proof.
  unfold file_map.
  repeat (rewrite lookup_insert; case_decide; [subst; repeat case_decide; try done |]).
  by repeat case_decide.
Qed.


Lemma add_actions_since_reflection (st : State)
    (calls : list (string * Py.dict * string)) :
  actions_since_reflection
    (foldl (fun st c => add_action st c.1.1 c.1.2 c.2) st calls) =
  actions_since_reflection st + Z.of_nat (length calls).
Proof.
  revert st. induction calls as [| c calls IH]; intros st; cbn [foldl].
  - simpl. lia.
  - rewrite IH. simpl. lia.
Qed.

(** X10. A reflection is due exactly every ten actions: after
    [mark_reflection], and on the state of a fresh workspace,
    [should_reflect] is false until [add_action] has been called ten times
    and true from then on. *)
Theorem reflection_due_after_ten_actions (st : State) (now : string)
    (sm : StateManager) (now1 now2 : string)
    (calls : list (string * Py.dict * string)) :
  (should_reflect
     (foldl (fun st c => add_action st c.1.1 c.1.2 c.2) (mark_reflection st now) calls)
   = true <-> (10 <= length calls)%nat) /\
  (should_reflect
     (foldl (fun st c => add_action st c.1.1 c.1.2 c.2)
        (_create_initial_state sm now1 now2) calls)
   = true <-> (10 <= length calls)%nat).
Proof.
  unfold should_reflect. rewrite !add_actions_since_reflection. simpl.
  rewrite !Z.leb_le. lia.
Qed.




End StoreFacts.

(** ** The context summary *)

Module ContextFacts.

Import StateManager Context.

Section Facts.

Variable str_of_path : path -> string.
Variable str_of_container : Py.val -> string.

Abbreviation summary_of := (get_context_summary str_of_path str_of_container).

(** X13. The context handed to the decision service shows, of the state,
    the working directory, the phase, the two counters, the files in
    context and the last five recent actions, and of the memory the goals,
    progress and blockers documents: states that agree on these, and
    memories that agree on these three documents, give the same text.  So
    the decisions document and the actions before the last five are never
    shown. *)
Theorem summary_shows_last_five_and_three_documents (st st' : State)
    (memory memory' : gmap string string) :
  current_working_directory st = current_working_directory st' ->
  current_phase st = current_phase st' ->
  total_actions st = total_actions st' ->
  actions_since_reflection st = actions_since_reflection st' ->
  files_in_context st = files_in_context st' ->
  Py.slice_from (-5) (recent_actions st) = Py.slice_from (-5) (recent_actions st') ->
  memory !! "goals" = memory' !! "goals" ->
  memory !! "progress" = memory' !! "progress" ->
  memory !! "blockers" = memory' !! "blockers" ->
  summary_of st memory = summary_of st' memory'.
Proof.
  intros Hcwd Hphase Htotal Hsince Hfiles Hrecent Hgoals Hprogress Hblockers.
  assert (forall l : list ActionEntry,
            match l with [] => [] | _ :: _ => Py.slice_from (-5) l end
            = Py.slice_from (-5) l) as Hslice by (by intros []).
  unfold get_context_summary. cbv zeta.
  rewrite !Hslice, Hcwd, Hphase, Htotal, Hsince, Hfiles, Hrecent,
    Hgoals, Hprogress, Hblockers.
  reflexivity.
Qed.

End Facts.

(** Two states whose histories differ before the last five entries, and two
    memories that differ on the decisions document. *)
Lemma summary_shows_last_five_and_three_documents_witness :
  get_context_summary Demo2.str_of_path Demo2.str_of_container
    (Demo2.with_history
       (Demo2.entry <$> ["b"; "c"; "d"; "e"; "f"]) 3)
    {["goals" := "Ship the parser"; "decisions" := "Use a hand-written lexer"]} =
  get_context_summary Demo2.str_of_path Demo2.str_of_container
    (Demo2.with_history
       (Demo2.entry <$> ["a"; "b"; "c"; "d"; "e"; "f"]) 3)
    {["goals" := "Ship the parser"]}.
Proof.
  apply (summary_shows_last_five_and_three_documents
           Demo2.str_of_path Demo2.str_of_container);
    vm_compute; reflexivity.
Defined.

End ContextFacts.

(** ** The control loop, continued *)

Module LoopFacts.

Import StateManager AgentV2 LoopLogic.

Lemma evolves_refl (st : State) : evolves st st.
Proof. unfold evolves. split_and!; done || lia. Qed.

Lemma evolves_trans (st1 st2 st3 : State) :
  evolves st1 st2 -> evolves st2 st3 -> evolves st1 st3.
Proof.
  unfold evolves. intros (? & ? & ? & ? & ? & ? & ? & ? & ?) (? & ? & ? & ? & ? & ? & ? & ? & ?).
  split_and!; try congruence; [lia | auto].
Qed.

Lemma evolves_add_action (st : State) (act : string) (result : Py.dict) (now : string) :
  evolves st (add_action st act result now).
Proof.
  unfold evolves. split_and!; try done.
  - simpl. lia.
  - intros _. rewrite StateManagerFacts.add_action_history, length_drop. lia.
Qed.

Lemma evolves_mark_reflection (st : State) (now : string) :
  evolves st (mark_reflection st now).
Proof. unfold evolves. split_and!; done || (simpl; lia). Qed.

Section Keeps.

Variable R : locals -> locals -> Prop.
Hypothesis R_refl : forall l, R l l.
Hypothesis R_trans : forall l1 l2 l3, R l1 l2 -> R l2 l3 -> R l1 l3.

Lemma keeps_ret {A : Type} (x : A) : keeps R (mret x).
Proof. intros l r l' H. inversion H. apply R_refl. Qed.

Lemma keeps_lift {A : Type} (r : Py.exn + A) : keeps R (lift r).
Proof. intros l r' l' H. inversion H. apply R_refl. Qed.

Lemma keeps_gets {A : Type} (f : locals -> A) : keeps R (gets f).
Proof. intros l r l' H. inversion H. apply R_refl. Qed.

Lemma keeps_modify (f : locals -> locals) : (forall l, R l (f l)) -> keeps R (modify f).
Proof. intros Hf l r l' H. inversion H. apply Hf. Qed.

Lemma keeps_on_files {A : Type} (f : Files -> (Py.exn + A) * Files) :
  (forall l fs, R l (set_files fs l)) -> keeps R (on_files f).
Proof.
  intros Hf l r l' H. unfold on_files in H.
  destruct (f (files l)) as [r0 fs]. inversion H. apply Hf.
Qed.

Lemma keeps_bind {A B : Type} (m : M A) (f : A -> M B) :
  keeps R m -> (forall x, keeps R (f x)) -> keeps R (m ≫= f).
Proof.
  intros Hm Hf l r l' H. unfold mbind, M_bind in H.
  destruct (m l) as [[e | x] l1] eqn:Hml.
  - inversion H. subst. by apply (Hm _ _ _ Hml).
  - apply (R_trans _ l1); [by apply (Hm _ _ _ Hml) | by apply (Hf x _ _ _ H)].
Qed.

End Keeps.

Lemma ensures_bind {A B : Type} (Q : locals -> Prop) (m : M A) (f : A -> M B) :
  (forall x, ensures Q (f x)) -> ensures Q (m ≫= f).
Proof.
  intros Hf l y l' H. unfold mbind, M_bind in H.
  destruct (m l) as [[e | x] l1]; [done |]. by apply (Hf x _ _ _ H).
Qed.

Lemma ensures_modify (Q : locals -> Prop) (f : locals -> locals) :
  (forall l, Q (f l)) -> ensures Q (modify f).
Proof. intros Hf l x l' H. inversion H. apply Hf. Qed.

Section Facts.

Variable system_prompt : string.
Variable context_summary : State -> gmap string string -> string.
Variable reflection_prompt : State -> gmap string string -> string.
Variable json_loads : string -> Py.exn + Py.val.
Variable json_dumps : Py.val -> string.
Variable sm : StateManager.

Abbreviation tool_calls := (run_tool_calls json_loads json_dumps sm).
Abbreviation body :=
  (iteration_body system_prompt context_summary reflection_prompt json_loads json_dumps sm).
Abbreviation step :=
  (iteration_step system_prompt context_summary reflection_prompt json_loads json_dumps sm).
Abbreviation loop :=
  (run_loop system_prompt context_summary reflection_prompt json_loads json_dumps sm).
Abbreviation run_agent :=
  (run system_prompt context_summary reflection_prompt json_loads json_dumps sm).

Lemma state_evolves_refl (l : locals) : state_evolves l l.
Proof. apply evolves_refl. Qed.

Lemma state_evolves_trans (l1 l2 l3 : locals) :
  state_evolves l1 l2 -> state_evolves l2 l3 -> state_evolves l1 l3.
Proof. apply evolves_trans. Qed.

Lemma tool_calls_evolve (e : iter_env) (calls : list tool_call) (k : nat) :
  keeps state_evolves (tool_calls e k calls).
Proof.
  pose proof state_evolves_refl as Hrefl. pose proof state_evolves_trans as Htrans.
  revert k. induction calls as [| tc calls IH]; intros k; simpl.
  - by apply keeps_ret.
  - apply keeps_bind; [done | by apply keeps_lift | intros function_args].
    apply keeps_bind; [done | by apply keeps_on_files | intros result].
    apply keeps_bind; [done | by apply keeps_modify | intros _].
    apply keeps_bind; [done | | intros _].
    { apply keeps_modify. intros l. apply evolves_add_action. }
    apply keeps_bind; [done | by apply keeps_lift | intros _].
    apply keeps_bind; [done | by apply keeps_lift | intros _].
    destruct (String.eqb (tc_name tc) "complete_goal").
    + apply keeps_bind; [done | by apply keeps_lift | intros _].
      by apply keeps_modify.
    + apply IH.
Qed.

Lemma body_evolves (e : iter_env) : keeps state_evolves (body e).
Proof.
  pose proof state_evolves_refl as Hrefl. pose proof state_evolves_trans as Htrans.
  unfold iteration_body.
  apply keeps_bind; [done | by apply keeps_gets | intros reflect].
  apply keeps_bind; [done | | intros _].
  { destruct reflect; [| by apply keeps_ret].
    apply keeps_bind; [done | by apply keeps_modify | intros _].
    apply keeps_bind; [done | | intros _].
    - apply keeps_modify. intros l. apply evolves_mark_reflection.
    - by apply keeps_modify. }
  apply keeps_bind; [done | by apply keeps_gets | intros context].
  apply keeps_bind; [done | | intros _].
  { apply keeps_modify. intros l.
    by destruct ((iteration l =? 1) || (actions_since_reflection (state l) =? 0)). }
  apply keeps_bind; [done | by apply keeps_lift | intros assistant].
  apply keeps_bind; [done | by apply keeps_modify | intros _].
  apply keeps_bind; [done | apply tool_calls_evolve | intros _].
  apply keeps_bind; [done | by apply keeps_modify | intros _].
  apply keeps_modify. intros l. by destruct (20 <? length (messages l))%nat.
Qed.

Lemma step_evolves (e : iter_env) (l : locals) : state_evolves l (step e l).2.
Proof.
  unfold iteration_step.
  destruct (body e l) as [[[| text] | x] l'] eqn:Hbody;
    pose proof (body_evolves e _ _ _ Hbody) as Hev; cbn -[add_action]; try done.
  apply (state_evolves_trans _ l'); [done |]. apply evolves_add_action.
Qed.

Lemma loop_evolves (env : Z -> iter_env) (max_iterations : Z) (fuel : nat) (l : locals) :
  state_evolves l (loop fuel env max_iterations l).
Proof.
  revert l. induction fuel as [| fuel IH]; intros l; simpl.
  - apply state_evolves_refl.
  - destruct (running l && (iteration l <? max_iterations)); [| apply state_evolves_refl].
    pose proof (step_evolves (env (iteration l + 1)) (set_iteration (iteration l + 1) l))
      as Hstep.
    destruct (step (env (iteration l + 1)) (set_iteration (iteration l + 1) l))
      as [[|] l2]; simpl in Hstep.
    + apply (state_evolves_trans _ l2); [done | apply IH].
    + done.
Qed.

(** [_set_goal] never fails. *)
Lemma set_goal_writes (goal : string) (fs : Files) :
  _set_goal sm goal fs =
  inr {| texts := <[goals_file sm := goals_content goal]> (texts fs);
         snapshots := snapshots fs |}.
Proof.
  unfold _set_goal, update_memory_file. by rewrite StoreFacts.file_map_lookup.
Qed.

(** X14. A state that [run] returns is the state it loaded, moved on by
    the loop: it has the same phase and the same identity fields, a counter
    of actions that is not smaller, a history of at most 20 entries if the
    loaded one had at most 20, and the same metadata but for [goal_set],
    which is true when a goal was passed. *)
Theorem returned_state_evolves_the_loaded_one (initial_goal : option string)
    (max_iterations : Z) (now1 now2 : string) (env : Z -> iter_env) (fs fs' : Files)
    (st : State) :
  run_agent initial_goal max_iterations now1 now2 env fs = (inr st, fs') ->
  current_phase st = current_phase (load_state sm fs now1 now2) /\
  total_actions (load_state sm fs now1 now2) <= total_actions st /\
  ((length (recent_actions (load_state sm fs now1 now2)) <= 20)%nat ->
   (length (recent_actions st) <= 20)%nat) /\
  metadata st =
    (if Py.truthy_opt initial_goal
     then Py.setitem (metadata (load_state sm fs now1 now2)) "goal_set" (Py.VBool true)
     else metadata (load_state sm fs now1 now2)) /\
  initialized_at st = initialized_at (load_state sm fs now1 now2).
Proof.
  unfold run. destruct (Py.truthy_opt initial_goal).
  - rewrite set_goal_writes. intros [= <- _].
    match goal with |- context [loop ?f ?e ?m ?l] =>
      pose proof (loop_evolves e m f l) as (Ht & Hh & Hp & Hm & _ & Hi & _) end.
    simpl in *. split_and!; done.
  - intros [= <- _].
    match goal with |- context [loop ?f ?e ?m ?l] =>
      pose proof (loop_evolves e m f l) as (Ht & Hh & Hp & Hm & _ & Hi & _) end.
    simpl in *. split_and!; done.
Qed.

(** An iteration that returns normally has saved the state and trimmed the
    conversation. *)
Lemma body_saves_and_trims (e : iter_env) :
  ensures (fun l => saved sm l /\ (length (messages l) <= 20)%nat) (body e).
Proof.
  unfold iteration_body.
  do 7 (apply ensures_bind; intros ?).
  intros l0 y l' H. unfold mbind, M_bind, modify in H. inversion H. subst. clear H.
  unfold saved. cbn [messages set_files].
  destruct (Nat.ltb_spec 20 (length (messages l0))) as [Hlong | Hshort].
  - split; [apply lookup_insert_eq |]. cbn [messages set_messages].
    rewrite length_app, length_take.
    change (-15) with (- Z.of_nat 15).
    rewrite PyFacts.slice_from_last_length by lia. lia.
  - split; [apply lookup_insert_eq | done].
Qed.

Lemma step_saves (e : iter_env) (l : locals) : saved sm (step e l).2.
Proof.
  unfold iteration_step.
  destruct (body e l) as [[[| text] | x] l'] eqn:Hbody.
  - apply lookup_insert_eq.
  - apply lookup_insert_eq.
  - by apply (body_saves_and_trims e _ _ _ Hbody).
Qed.

Lemma loop_saves (env : Z -> iter_env) (max_iterations : Z) (fuel : nat) (l : locals) :
  saved sm l \/ (running l = true /\ iteration l < max_iterations /\ (0 < fuel)%nat) ->
  saved sm (loop fuel env max_iterations l).
Proof.
  revert l. induction fuel as [| fuel IH]; intros l Hl; simpl.
  - destruct Hl as [Hl | (_ & _ & Hfuel)]; [done | lia].
  - destruct (running l && (iteration l <? max_iterations)) eqn:Hcond.
    + pose proof (step_saves (env (iteration l + 1)) (set_iteration (iteration l + 1) l))
        as Hstep.
      destruct (step (env (iteration l + 1)) (set_iteration (iteration l + 1) l))
        as [[|] l2]; simpl in Hstep; [apply IH; by left | done].
    + destruct Hl as [Hl | (Hrun & Hlt & _)]; [done |].
      rewrite Hrun in Hcond. apply Z.ltb_lt in Hlt. by rewrite Hlt in Hcond.
Qed.

(** X15. When [run] is allowed at least one iteration, the state it
    returns is the state it last saved: [.agent_state.json] holds the
    returned state, whatever the tools did to the files and however the
    loop ended. *)
Theorem run_returns_the_saved_state (initial_goal : option string)
    (max_iterations : Z) (now1 now2 : string) (env : Z -> iter_env) (fs : Files) :
  1 <= max_iterations ->
  exists st fs',
    run_agent initial_goal max_iterations now1 now2 env fs = (inr st, fs') /\
    snapshots fs' !! state_file sm = Some st.
Proof.
  intros Hmax. unfold run. destruct (Py.truthy_opt initial_goal).
  - rewrite set_goal_writes. eexists _, _. split; [reflexivity |].
    apply loop_saves. right. simpl. split_and!; [done | lia | lia].
  - eexists _, _. split; [reflexivity |].
    apply loop_saves. right. simpl. split_and!; [done | lia | lia].
Qed.

(** The files that [run] leaves when no iteration is allowed. *)
Lemma loop_without_iterations (env : Z -> iter_env) (max_iterations : Z) (fuel : nat)
    (l : locals) :
  max_iterations <= iteration l -> loop fuel env max_iterations l = l.
Proof.
  intros Hmax. destruct fuel; simpl; [done |].
  apply Z.ltb_ge in Hmax. rewrite Hmax. by rewrite andb_false_r.
Qed.

(** X16. A session never writes the completion marker that the supervisor
    looks for: after [run], the test "the state file exists and its phase
    is complete" gives what it gave before. *)
Theorem run_never_marks_the_goal_complete (initial_goal : option string)
    (max_iterations : Z) (now1 now2 : string) (env : Z -> iter_env) (fs : Files) :
  exists st fs',
    run_agent initial_goal max_iterations now1 now2 env fs = (inr st, fs') /\
    Continuous.goal_complete (snapshots fs' !! state_file sm) =
    Continuous.goal_complete (snapshots fs !! state_file sm).
Proof.
  assert (forall st0 mem fs0,
            snapshots fs0 !! state_file sm = snapshots fs !! state_file sm ->
            current_phase st0 = current_phase (load_state sm fs now1 now2) ->
            let l := loop (Z.to_nat max_iterations) env max_iterations
                       {| state := st0; memory := mem; messages := []; running := true;
                          iteration := 0; files := fs0 |} in
            Continuous.goal_complete (snapshots (files l) !! state_file sm) =
            Continuous.goal_complete (snapshots fs !! state_file sm)) as Hloop.
  { intros st0 mem fs0 Hfs0 Hphase l.
    destruct (Z.le_gt_cases 1 max_iterations) as [Hmax | Hmax].
    - pose proof (loop_evolves env max_iterations (Z.to_nat max_iterations)
                    {| state := st0; memory := mem; messages := []; running := true;
                       iteration := 0; files := fs0 |}) as (_ & _ & Hp & _).
      pose proof (loop_saves env max_iterations (Z.to_nat max_iterations)
                    {| state := st0; memory := mem; messages := []; running := true;
                       iteration := 0; files := fs0 |}) as Hsaved.
      unfold saved in Hsaved. subst l. rewrite Hsaved.
      + simpl in *. rewrite Hp, Hphase. unfold load_state.
        by destruct (snapshots fs !! state_file sm).
      + right. simpl. split_and!; [done | lia | lia].
    - subst l. rewrite loop_without_iterations by (simpl; lia). simpl.
      by rewrite Hfs0. }
  unfold run. destruct (Py.truthy_opt initial_goal).
  - rewrite set_goal_writes. eexists _, _. split; [reflexivity |].
    by apply Hloop.
  - eexists _, _. split; [reflexivity |]. by apply Hloop.
Qed.

(** X17. In an iteration that starts with a reflection the decision service
    is asked with the system prompt and the fresh context only: the
    reflection prompt that [_reflect] appends is replaced before the
    request, since [mark_reflection] has just set the counter to 0.  The
    request is made on the state with the counter reset and the reflection
    stamped. *)
Theorem reflection_prompt_is_replaced (e : iter_env) (l : locals) :
  should_reflect (state l) = true ->
  (forall ex, completion e = inl ex ->
     exists l1,
       body e l = (inl ex, l1) /\
       messages l1 =
         [Msg "system" system_prompt;
          Msg "user" (context_summary (state l1) (memory l1))] /\
       state l1 = mark_reflection (state l) (now_reflection e) /\
       memory l1 = load_memory sm (files l)) /\
  (forall am, completion e = inr am -> am_tool_calls am = [] ->
     exists l1,
       body e l = (inr tt, l1) /\
       messages l1 =
         [Msg "system" system_prompt;
          Msg "user" (context_summary (state l1) (memory l1));
          MsgAssistant am] /\
       state l1 = mark_reflection (state l) (now_reflection e)).
Proof.
  intros Hreflect. split.
  - intros ex Hex. eexists.
    unfold iteration_body, mbind, M_bind, gets, modify, lift, _reflect.
    rewrite Hreflect, Hex. cbn -[mark_reflection load_memory].
    rewrite orb_true_r. split_and!; reflexivity.
  - intros am Ham Hcalls. eexists.
    unfold iteration_body, mbind, M_bind, gets, modify, lift, _reflect.
    rewrite Hreflect, Ham, Hcalls. cbn -[mark_reflection load_memory save_state].
    rewrite orb_true_r. cbn -[mark_reflection load_memory save_state].
    split_and!; reflexivity.
Qed.

(** X18. A user interrupt during the decision request ends the loop: the
    iteration saves the state and breaks, no entry is added to the history
    and no action is counted. *)
Theorem interrupt_saves_and_breaks (e : iter_env) (l : locals) :
  completion e = inl Py.KeyboardInterrupt ->
  exists l',
    step e l = (BreakLoop, l') /\
    saved sm l' /\
    recent_actions (state l') = recent_actions (state l) /\
    total_actions (state l') = total_actions (state l) /\
    (forall (env : Z -> iter_env) (max_iterations : Z) (fuel : nat) (l0 : locals),
       running l0 = true -> iteration l0 < max_iterations ->
       env (iteration l0 + 1) = e -> set_iteration (iteration l0 + 1) l0 = l ->
       loop (S fuel) env max_iterations l0 = l').
Proof.
  intros Hint.
  assert (exists l1, body e l = (inl Py.KeyboardInterrupt, l1) /\
            recent_actions (state l1) = recent_actions (state l) /\
            total_actions (state l1) = total_actions (state l)) as (l1 & Hbody & Hrec & Htot).
  { unfold iteration_body, mbind, M_bind, gets, modify, lift, _reflect.
    rewrite Hint. destruct (should_reflect (state l)); cbn.
    - rewrite orb_true_r. eexists. split_and!; reflexivity.
    - destruct ((iteration l =? 1) || (actions_since_reflection (state l) =? 0));
        eexists; split_and!; reflexivity. }
  eexists. split_and!.
  - unfold iteration_step. rewrite Hbody. reflexivity.
  - apply lookup_insert_eq.
  - done.
  - done.
  - intros env max_iterations fuel l0 Hrun Hlt Henv Hl0. simpl.
    rewrite Hrun. apply Z.ltb_lt in Hlt. rewrite Hlt. simpl.
    rewrite Henv, Hl0. unfold iteration_step. by rewrite Hbody.
Qed.

(** The loop never counts past its cap. *)
Lemma loop_iteration_bound (env : Z -> iter_env) (max_iterations : Z) (fuel : nat)
    (l : locals) :
  iteration l <= iteration (loop fuel env max_iterations l) /\
  iteration (loop fuel env max_iterations l) <= Z.max (iteration l) max_iterations.
Proof.
  revert l. induction fuel as [| fuel IH]; intros l; simpl; [lia |].
  destruct (running l); simpl; [| lia].
  destruct (Z.ltb_spec (iteration l) max_iterations) as [Hlt | Hge]; [| lia].
  pose proof (AgentV2Facts.iteration_step_iteration system_prompt context_summary
                reflection_prompt json_loads json_dumps sm
                (env (iteration l + 1)) (set_iteration (iteration l + 1) l)) as Hi.
  destruct (step (env (iteration l + 1)) (set_iteration (iteration l + 1) l))
    as [[|] l2]; simpl in Hi.
  - specialize (IH l2). lia.
  - lia.
Qed.

(** X19. The loop of [run] makes at most [max_iterations] iterations: the
    counter never passes the cap, the fuel of the embedding is never what
    stops it, and with a cap of zero or less the variables are returned as
    they are. *)
Theorem loop_respects_the_cap (env : Z -> iter_env) (max_iterations : Z) (fuel : nat)
    (l : locals) :
  iteration l = 0 ->
  iteration (loop (Z.to_nat max_iterations) env max_iterations l)
    <= Z.max 0 max_iterations /\
  loop (Z.to_nat max_iterations + fuel) env max_iterations l =
    loop (Z.to_nat max_iterations) env max_iterations l /\
  (max_iterations <= 0 -> loop fuel env max_iterations l = l).
Proof.
  intros Hzero. split_and!.
  - pose proof (loop_iteration_bound env max_iterations (Z.to_nat max_iterations) l).
    lia.
  - rewrite (AgentV2Facts.run_loop_fuel system_prompt context_summary reflection_prompt
               json_loads json_dumps sm env max_iterations
               (Z.to_nat max_iterations + fuel) l)
      by (rewrite Hzero; lia).
    by rewrite Hzero, Z.sub_0_r.
  - intros Hmax. apply loop_without_iterations. lia.
Qed.

(** What [_execute_tool] does for [complete_goal]. *)
Lemma execute_complete_goal (d : Py.dict) (ext : tool_effect) (fs : Files) :
  _execute_tool sm "complete_goal" (Py.VDict d) ext fs =
  match Py.lookup d "summary" with
  | Some text =>
      (inr [("success", Py.VBool true); ("summary", text); ("data", Py.VDict []);
            ("next_suggestions", Py.VList [])], fs)
  | None =>
      (inr (tool_result false "Tool execution failed: 'summary'"
              ["Try a different approach"]), fs)
  end.
Proof.
  unfold _execute_tool, dispatch. cbn. unfold Py.getitem.
  by destruct (Py.lookup d "summary").
Qed.

(** Code that returns hands its result and variables to what follows. *)
Lemma bind_returns {A B : Type} (m : M A) (f : A -> M B) (l l1 : locals) (x : A) :
  m l = (inr x, l1) -> (m ≫= f) l = f x l1.
Proof. intros H. unfold mbind, M_bind. by rewrite H. Qed.

(** The variables when the tool calls of a reply start, given those at the
    start of the iteration. *)
Lemma body_with_reply (e : iter_env) (l : locals) (am : assistant_message) :
  completion e = inr am ->
  exists l1,
    body e l =
      (_ ← tool_calls e 0 (am_tool_calls am);
       _ ← modify (fun l => set_files (save_state sm (state l) (files l)) l);
       modify (fun l =>
         if (20 <? length (messages l))%nat
         then set_messages (take 1 (messages l) ++ Py.slice_from (-15) (messages l)) l
         else l)) l1 /\
    running l1 = running l /\ iteration l1 = iteration l /\ files l1 = files l /\
    total_actions (state l1) = total_actions (state l) /\
    recent_actions (state l1) = recent_actions (state l).
Proof.
  intros Ham. unfold iteration_body. rewrite Ham.
  erewrite bind_returns; [| reflexivity].
  destruct (should_reflect (state l)).
  - do 5 (erewrite bind_returns; [| reflexivity]).
    eexists. split; [reflexivity |].
    cbn. rewrite orb_true_r. done.
  - do 5 (erewrite bind_returns; [| reflexivity]).
    eexists. split; [reflexivity |].
    cbn. by destruct ((iteration l =? 1) || (actions_since_reflection (state l) =? 0)).
Qed.

(** The loop over the tool calls at a [complete_goal] call. *)
Lemma tool_calls_complete_goal (e : iter_env) (k : nat) (l : locals) (tc : tool_call)
    (rest : list tool_call) (d : Py.dict) :
  tc_name tc = "complete_goal" ->
  json_loads (tc_arguments tc) = inr (Py.VDict d) ->
  tool_calls e k (tc :: rest) l =
  match Py.lookup d "summary" with
  | Some text =>
      let result :=
        [("success", Py.VBool true); ("summary", text); ("data", Py.VDict []);
         ("next_suggestions", Py.VList [])] in
      (inr tt,
       set_running false
         (set_state
            (add_action (state l) (descriptor json_dumps "complete_goal" (Py.VDict d))
               result (now_recorded (call_envs e k)))
            (set_messages
               (messages l ++ [MsgTool (tc_id tc) (json_dumps (Py.VDict result))]) l)))
  | None =>
      let result :=
        tool_result false "Tool execution failed: 'summary'" ["Try a different approach"] in
      (inl (Py.KeyError "summary"),
       set_state
         (add_action (state l) (descriptor json_dumps "complete_goal" (Py.VDict d))
            result (now_recorded (call_envs e k)))
         (set_messages
            (messages l ++ [MsgTool (tc_id tc) (json_dumps (Py.VDict result))]) l))
  end.
Proof.
  intros Hname Hargs. cbn [run_tool_calls]. rewrite Hname, Hargs.
  unfold mbind, M_bind, lift, on_files, modify.
  rewrite execute_complete_goal.
  destruct l as [st mem msgs run it fs].
  destruct (Py.lookup d "summary") as [text |] eqn:Hsummary;
    cbn -[add_action]; unfold Py.getitem; rewrite Hsummary; reflexivity.
Qed.

(** The loop over the tool calls passes the calls it gets through: each
    adds one action and leaves [self.running] as it is. *)
Lemma tool_calls_through (e : iter_env) (k : nat) (before more : list tool_call)
    (l : locals) :
  (forall i c, before !! i = Some c -> goes_through json_loads sm e (k + i) c) ->
  exists l1,
    tool_calls e k (before ++ more) l = tool_calls e (k + length before) more l1 /\
    running l1 = running l /\
    total_actions (state l1) = total_actions (state l) + Z.of_nat (length before).
Proof.
  revert k l. induction before as [| c before IH]; intros k l Hall.
  - exists l. rewrite Nat.add_0_r. simpl. split_and!; [done | done | lia].
  - destruct (Hall 0%nat c eq_refl) as (Hname & args & Hargs & Htool).
    rewrite Nat.add_0_r in Htool.
    destruct (Htool (files l)) as (result & fs' & Hexec & [v1 Hv1] & [v2 Hv2]).
    apply String.eqb_neq in Hname.
    assert (forall i c', before !! i = Some c' ->
              goes_through json_loads sm e (S k + i) c') as Hrest.
    { intros i c' Hi. specialize (Hall (S i) c' Hi).
      by rewrite Nat.add_succ_r in Hall. }
    cbn [app run_tool_calls].
    unfold mbind at 1, M_bind at 1, lift at 1. rewrite Hargs.
    unfold mbind at 1, M_bind at 1, on_files at 1. rewrite Hexec.
    unfold mbind at 1, M_bind at 1, modify at 1.
    unfold mbind at 1, M_bind at 1, modify at 1.
    unfold mbind at 1, M_bind at 1, lift at 1, Py.getitem at 1. rewrite Hv1.
    unfold mbind at 1, M_bind at 1, lift at 1, Py.getitem at 1. rewrite Hv2.
    rewrite Hname.
    match goal with |- context [tool_calls e (S k) (before ++ more) ?l'] =>
      destruct (IH (S k) l' Hrest) as (l1 & Hcalls & Hrunning & Htotal) end.
    exists l1. split_and!.
    + rewrite Hcalls. f_equal. simpl. lia.
    + by rewrite Hrunning.
    + rewrite Htotal. cbn. lia.
Qed.

(** Two entries recorded one after the other are the last two of the
    history. *)
Lemma add_action_last_two (st : State) (act1 act2 : string) (result1 result2 : Py.dict)
    (now1 now2 : string) :
  exists older,
    recent_actions (add_action (add_action st act1 result1 now1) act2 result2 now2) =
    older ++
      [{| timestamp := now1; action := act1;
          success := Py.get result1 "success" (Py.VBool false);
          summary := Py.get result1 "summary" (Py.VStr "") |};
       {| timestamp := now2; action := act2;
          success := Py.get result2 "success" (Py.VBool false);
          summary := Py.get result2 "summary" (Py.VStr "") |}].
Proof.
  rewrite !StateManagerFacts.add_action_history. cbv zeta.
  set (e1 := {| timestamp := now1 |}). set (e2 := {| timestamp := now2 |}).
  rewrite (drop_app_le (recent_actions st)) by (rewrite length_app; simpl; lia).
  set (kept := drop _ (recent_actions st)).
  rewrite <- app_assoc. cbn [app].
  rewrite drop_app_le by (rewrite length_app; simpl; lia).
  by eexists.
Qed.

(** X20. A [complete_goal] call that carries a summary stops the agent,
    wherever it stands in the reply: after the calls before it, which the
    loop gets through, the call is recorded as a success with that summary,
    the calls after it in the same reply are not made (one action is counted
    for each call before it and one for it), [self.running] becomes false,
    the state is saved, and the loop makes no further iteration. *)
Theorem complete_goal_stops_the_loop (e : iter_env) (l : locals)
    (am : assistant_message) (before : list tool_call) (tc : tool_call)
    (rest : list tool_call) (d : Py.dict) (text : Py.val) :
  completion e = inr am ->
  am_tool_calls am = before ++ tc :: rest ->
  (forall i c, before !! i = Some c -> goes_through json_loads sm e i c) ->
  tc_name tc = "complete_goal" ->
  json_loads (tc_arguments tc) = inr (Py.VDict d) ->
  Py.lookup d "summary" = Some text ->
  exists l',
    step e l = (NextIteration, l') /\
    running l' = false /\
    last (recent_actions (state l')) =
      Some {| timestamp := now_recorded (call_envs e (length before));
              action := descriptor json_dumps "complete_goal" (Py.VDict d);
              success := Py.VBool true;
              summary := text |} /\
    total_actions (state l') = total_actions (state l) + Z.of_nat (length before) + 1 /\
    saved sm l' /\
    (forall env max_iterations fuel, loop fuel env max_iterations l' = l').
Proof.
  intros Ham Hcalls Hbefore Hname Hargs Hsummary.
  destruct (body_with_reply e l am Ham) as (l1 & Hbody & _ & _ & _ & Htotal & _).
  rewrite Hcalls in Hbody.
  destruct (tool_calls_through e 0 before (tc :: rest) l1 Hbefore)
    as (l2 & Hthrough & _ & Htotal2).
  cbn [Nat.add] in Hthrough.
  erewrite bind_returns in Hbody;
    [| rewrite Hthrough,
         (tool_calls_complete_goal e (length before) l2 tc rest d Hname Hargs), Hsummary;
       reflexivity].
  erewrite bind_returns in Hbody; [| reflexivity].
  unfold modify in Hbody.
  eexists. split_and!.
  - unfold iteration_step. rewrite Hbody. reflexivity.
  - by match goal with |- context [if ?c then _ else _] => destruct c end.
  - match goal with |- context [if ?c then _ else _] => destruct c end;
      cbn -[add_action]; by rewrite AgentV2Facts.add_action_last.
  - match goal with |- context [if ?c then _ else _] => destruct c end; cbn; lia.
  - unfold saved.
    match goal with |- context [if ?c then _ else _] => destruct c end;
      apply lookup_insert_eq.
  - intros env max_iterations fuel. destruct fuel; simpl; [done |].
    by match goal with |- context [running (if ?c then _ else _)] => destruct c end.
Qed.

(** X21. A [complete_goal] call without a summary does not stop the agent,
    wherever it stands in the reply: after the calls before it, which the
    loop gets through, the call is recorded as a failure, reading the
    missing summary then raises in [run], and an "error" entry follows, so
    that the history ends with the entry of the failed call and the "error"
    entry; one action is counted for each call before it and two for it, the
    calls after it are not made, [self.running] stays as it was and the
    state is saved. *)
Theorem complete_goal_without_summary_goes_on (e : iter_env) (l : locals)
    (am : assistant_message) (before : list tool_call) (tc : tool_call)
    (rest : list tool_call) (d : Py.dict) :
  completion e = inr am ->
  am_tool_calls am = before ++ tc :: rest ->
  (forall i c, before !! i = Some c -> goes_through json_loads sm e i c) ->
  tc_name tc = "complete_goal" ->
  json_loads (tc_arguments tc) = inr (Py.VDict d) ->
  Py.lookup d "summary" = None ->
  exists l' older,
    step e l = (NextIteration, l') /\
    running l' = running l /\
    recent_actions (state l') =
      older ++
        [{| timestamp := now_recorded (call_envs e (length before));
            action := descriptor json_dumps "complete_goal" (Py.VDict d);
            success := Py.VBool false;
            summary := Py.VStr "Tool execution failed: 'summary'" |};
         {| timestamp := now_error e;
            action := "error";
            success := Py.VBool false;
            summary := Py.VStr "Error: 'summary'" |}] /\
    total_actions (state l') = total_actions (state l) + Z.of_nat (length before) + 2 /\
    saved sm l'.
Proof.
  intros Ham Hcalls Hbefore Hname Hargs Hsummary.
  destruct (body_with_reply e l am Ham) as (l1 & Hbody & Hrun1 & _ & _ & Htotal & _).
  rewrite Hcalls in Hbody.
  destruct (tool_calls_through e 0 before (tc :: rest) l1 Hbefore)
    as (l2 & Hthrough & Hrun2 & Htotal2).
  cbn [Nat.add] in Hthrough.
  unfold mbind at 1, M_bind at 1 in Hbody.
  rewrite Hthrough,
    (tool_calls_complete_goal e (length before) l2 tc rest d Hname Hargs), Hsummary
    in Hbody.
  cbv beta iota zeta in Hbody.
  match type of Hbody with
  | _ = (_, set_state (add_action ?st ?act ?result ?now) _) =>
      destruct (add_action_last_two st act "error" result
                  (error_result "'summary'") now (now_error e)) as [older Holder]
  end.
  eexists _, older. split_and!.
  - unfold iteration_step. rewrite Hbody. reflexivity.
  - cbn -[add_action]. congruence.
  - cbn -[add_action]. exact Holder.
  - cbn. lia.
  - apply lookup_insert_eq.
Qed.





End Facts.

(** A [read_file] call without its path is answered with a failed result,
    and the loop over the tool calls goes on. *)
Lemma reading_goes_through (arguments : string) (i : nat) (c : tool_call) :
  [Demo2.reading] !! i = Some c ->
  goes_through Demo2.json_loads Demo.manager (Demo2.completing_second arguments) i c.
Proof.
  destruct i as [| i]; [| done]. intros [= <-].
  split; [discriminate |]. exists (Py.VDict []). split; [reflexivity |].
  intros fs. eexists _, _. split; [reflexivity |]. split; by eexists.
Qed.


(** A run of one iteration on an empty workspace, with a goal to set. *)
Lemma returned_state_evolves_the_loaded_one_witness :
  exists st fs',
    run Demo.system_prompt Demo.context_summary Demo.reflection_prompt
      Demo2.json_loads Demo.json_dumps Demo.manager
      (Some "Build a parser") 1 "2025-01-01T00:00:00Z" "2025-01-01T00:00:00Z"
      (fun _ => Demo2.plain_reply) Demo.no_files = (inr st, fs') /\
    current_phase st = "initialization" /\
    0 <= total_actions st /\
    Py.lookup (metadata st) "goal_set" = Some (Py.VBool true).
Proof.
  eexists _, _. split; [reflexivity |].
  destruct (returned_state_evolves_the_loaded_one Demo.system_prompt Demo.context_summary
              Demo.reflection_prompt Demo2.json_loads Demo.json_dumps Demo.manager
              (Some "Build a parser") 1 "2025-01-01T00:00:00Z" "2025-01-01T00:00:00Z"
              (fun _ => Demo2.plain_reply) Demo.no_files _ _ eq_refl)
    as (Hphase & Htotal & _ & Hmeta & _).
  split_and!; [exact Hphase | exact Htotal | by rewrite Hmeta].
Defined.

(** One allowed iteration on an empty workspace, with a goal to set. *)
Lemma run_returns_the_saved_state_witness :
  exists st fs',
    run Demo.system_prompt Demo.context_summary Demo.reflection_prompt
      Demo2.json_loads Demo.json_dumps Demo.manager
      (Some "Build a parser") 1 "2025-01-01T00:00:00Z" "2025-01-01T00:00:00Z"
      (fun _ => Demo2.plain_reply) Demo.no_files = (inr st, fs') /\
    snapshots fs' !! state_file Demo.manager = Some st.
Proof.
  apply (run_returns_the_saved_state Demo.system_prompt Demo.context_summary
           Demo.reflection_prompt Demo2.json_loads Demo.json_dumps Demo.manager).
  lia.
Defined.

(** An iteration entered with ten actions since the last reflection. *)
Lemma reflection_prompt_is_replaced_witness :
  exists l1,
    iteration_body Demo.system_prompt Demo.context_summary Demo.reflection_prompt
      Demo2.json_loads Demo.json_dumps Demo.manager
      Demo2.plain_reply Demo2.due_for_reflection = (inr tt, l1) /\
    messages l1 =
      [Msg "system" Demo.system_prompt;
       Msg "user" (Demo.context_summary (state l1) (memory l1));
       MsgAssistant Demo2.thinking] /\
    state l1 =
      mark_reflection (state Demo2.due_for_reflection)
        (now_reflection Demo2.plain_reply).
Proof.
  apply (proj2 (reflection_prompt_is_replaced Demo.system_prompt Demo.context_summary
                  Demo.reflection_prompt Demo2.json_loads Demo.json_dumps Demo.manager
                  Demo2.plain_reply Demo2.due_for_reflection eq_refl)
           Demo2.thinking); reflexivity.
Defined.

(** The user interrupts the first request of a run. *)
Lemma interrupt_saves_and_breaks_witness :
  exists l',
    iteration_step Demo.system_prompt Demo.context_summary Demo.reflection_prompt
      Demo2.json_loads Demo.json_dumps Demo.manager
      Demo2.interrupted_request (set_iteration 1 Demo.fresh) = (BreakLoop, l') /\
    saved Demo.manager l' /\
    recent_actions (state l') = [] /\
    total_actions (state l') = 0.
Proof.
  destruct (interrupt_saves_and_breaks Demo.system_prompt Demo.context_summary
              Demo.reflection_prompt Demo2.json_loads Demo.json_dumps Demo.manager
              Demo2.interrupted_request (set_iteration 1 Demo.fresh) eq_refl)
    as (l' & Hstep & Hsaved & Hrecent & Htotal & _).
  exists l'. split_and!; [exact Hstep | exact Hsaved | exact Hrecent | exact Htotal].
Defined.

(** A cap of three iterations on replies without tool calls. *)
Lemma loop_respects_the_cap_witness :
  iteration
    (run_loop Demo.system_prompt Demo.context_summary Demo.reflection_prompt
       Demo2.json_loads Demo.json_dumps Demo.manager
       3 (fun _ => Demo2.plain_reply) 3 Demo.fresh) <= 3 /\
  run_loop Demo.system_prompt Demo.context_summary Demo.reflection_prompt
    Demo2.json_loads Demo.json_dumps Demo.manager
    (3 + 4) (fun _ => Demo2.plain_reply) 3 Demo.fresh =
  run_loop Demo.system_prompt Demo.context_summary Demo.reflection_prompt
    Demo2.json_loads Demo.json_dumps Demo.manager
    3 (fun _ => Demo2.plain_reply) 3 Demo.fresh.
Proof.
  destruct (loop_respects_the_cap Demo.system_prompt Demo.context_summary
              Demo.reflection_prompt Demo2.json_loads Demo.json_dumps Demo.manager
              (fun _ => Demo2.plain_reply) 3 4%nat Demo.fresh eq_refl)
    as (Hcap & Hfuel & _).
  split; [exact Hcap | exact Hfuel].
Defined.

(** The second of the three calls of the first reply of a run is
    [complete_goal] with a summary. *)
Lemma complete_goal_stops_the_loop_witness :
  exists l',
    iteration_step Demo.system_prompt Demo.context_summary Demo.reflection_prompt
      Demo2.json_loads Demo.json_dumps Demo.manager
      (Demo2.completing_second "done") (set_iteration 1 Demo.fresh) = (NextIteration, l') /\
    running l' = false /\
    summary <$> last (recent_actions (state l')) = Some (Py.VStr "All done") /\
    total_actions (state l') = 2.
Proof.
  destruct (complete_goal_stops_the_loop Demo.system_prompt Demo.context_summary
              Demo.reflection_prompt Demo2.json_loads Demo.json_dumps Demo.manager
              (Demo2.completing_second "done") (set_iteration 1 Demo.fresh)
              (Demo2.three_calls "done") [Demo2.reading] (Demo2.finishing "done")
              [Demo2.listing] [("summary", Py.VStr "All done")] (Py.VStr "All done")
              eq_refl eq_refl (reading_goes_through "done") eq_refl eq_refl eq_refl)
    as (l' & Hstep & Hrunning & Hlast & Htotal & _).
  exists l'. split_and!; [exact Hstep | exact Hrunning | by rewrite Hlast | exact Htotal].
Defined.

(** The second of the three calls of the first reply of a run is
    [complete_goal] with the empty object. *)
Lemma complete_goal_without_summary_goes_on_witness :
  exists l' older,
    iteration_step Demo.system_prompt Demo.context_summary Demo.reflection_prompt
      Demo2.json_loads Demo.json_dumps Demo.manager
      (Demo2.completing_second "{}") (set_iteration 1 Demo.fresh) = (NextIteration, l') /\
    running l' = true /\
    action <$> recent_actions (state l') = older ++ ["complete_goal({})"; "error"] /\
    total_actions (state l') = 3.
Proof.
  destruct (complete_goal_without_summary_goes_on Demo.system_prompt Demo.context_summary
              Demo.reflection_prompt Demo2.json_loads Demo.json_dumps Demo.manager
              (Demo2.completing_second "{}") (set_iteration 1 Demo.fresh)
              (Demo2.three_calls "{}") [Demo2.reading] (Demo2.finishing "{}")
              [Demo2.listing] [] eq_refl eq_refl (reading_goes_through "{}")
              eq_refl eq_refl eq_refl)
    as (l' & older & Hstep & Hrunning & Hrecent & Htotal & _).
  exists l', (action <$> older).
  split_and!; [exact Hstep | exact Hrunning | | exact Htotal].
  rewrite Hrecent, fmap_app. reflexivity.
Defined.

End LoopFacts.

(** ** The tool dispatcher *)

Module ToolFacts.

Import StateManager AgentV2.

(** X22. [_execute_tool] lets no exception through but a user interrupt:
    whatever the tool name, the arguments and the behaviour of the tool, it
    never raises an [Exception]. *)
Theorem execute_tool_never_raises_exception (sm : StateManager) (function_name : string)
    (args : Py.val) (ext : tool_effect) (fs fs' : Files) (text : string) :
  _execute_tool sm function_name args ext fs <> (inl (Py.Exception text), fs').
Proof.
  unfold _execute_tool.
  destruct (dispatch sm function_name args ext fs) as [[[| raised] | result] fs1];
    intros H; discriminate H.
Qed.

(** X23. A tool name outside the eight of the catalog gives the failed
    result "Unknown tool: name"; no tool is called and no file is touched,
    whatever the arguments are. *)
Theorem unknown_tool_is_reported (sm : StateManager) (function_name : string)
    (args : Py.val) (ext : tool_effect) (fs : Files) :
  ~ function_name ∈ ["search_files"; "read_file"; "write_file"; "list_files";
                     "run_command"; "get_project_structure"; "update_memory";
                     "complete_goal"] ->
  _execute_tool sm function_name args ext fs =
  (inr (tool_result false ("Unknown tool: " +:+ function_name) []), fs).
Proof.
  intros Hname. rewrite !elem_of_cons, elem_of_nil in Hname.
  assert (forall s, function_name <> s -> String.eqb function_name s = false) as Hne
    by (intros s Hs; by apply String.eqb_neq).
  unfold _execute_tool, dispatch.
  rewrite (Hne "search_files"), (Hne "read_file"), (Hne "write_file"),
    (Hne "list_files"), (Hne "run_command"), (Hne "get_project_structure"),
    (Hne "update_memory"), (Hne "complete_goal") by tauto.
  reflexivity.
Qed.

Lemma unknown_tool_is_reported_witness :
  _execute_tool Demo.manager "delete_file" (Py.VDict []) Demo.quiet_tool Demo.no_files =
  (inr (tool_result false "Unknown tool: delete_file" []), Demo.no_files).
Proof.
  apply (unknown_tool_is_reported Demo.manager "delete_file").
  rewrite !elem_of_cons, elem_of_nil. intros H.
  repeat (destruct H as [H | H]; [discriminate H |]). exact H.
Defined.


End ToolFacts.

(** ** The session supervisor, continued *)

Module SupervisorFacts.

Import Continuous SupervisorLogic.

Lemma tally_cons (p : session_env -> bool) (e : session_env) (ran : list session_env) :
  tally p (e :: ran) = (if p e then 1 else 0) + tally p ran.
Proof. reflexivity. Qed.

Lemma tally_filter (p : session_env -> bool) (ran : list session_env) :
  tally p ran = Z.of_nat (length (filter (fun e => p e = true) ran)).
Proof.
  induction ran as [| e ran IH]; [done |].
  rewrite tally_cons, filter_cons, IH.
  destruct (p e); case_decide; try done; simpl length; lia.
Qed.

(** What the loop has added to the run when it is left, in terms of the
    turns it went through. *)
Lemma session_loop_accounts (end_time : Q) (envs : list session_env) (r0 : run_state) :
  let r := (session_loop end_time envs r0).2 in
  let ran := take (sessions_started r - sessions_started r0) envs in
  (sessions_started r0 <= sessions_started r)%nat /\
  (sessions_started r <= sessions_started r0 + length envs)%nat /\
  sessions_completed (stats r) = sessions_completed (stats r0) + tally session_completed ran /\
  sessions_failed (stats r) = sessions_failed (stats r0) + tally session_failed ran /\
  stats_total_actions (stats r) =
    stats_total_actions (stats r0) + foldr Z.add 0 (session_actions <$> ran) /\
  errors (stats r) = errors (stats r0) ++ omap session_error ran /\
  Z.of_nat (length (persisted r)) =
    Z.of_nat (length (persisted r0)) + tally session_completed ran
    + tally session_failed ran /\
  Forall (fun e => (t_loop_check e < end_time)%Q) ran /\
  goal (stats r) = goal (stats r0) /\
  started_at (stats r) = started_at (stats r0) /\
  duration_hours (stats r) = duration_hours (stats r0).
Proof.
  revert r0. induction envs as [| e envs IH]; intros r0.
  { cbn. rewrite Nat.sub_diag, app_nil_r.
    split_and!; cbn; first [done | lia | by constructor]. }
  cbn [session_loop].
  destruct (Py.Qltb (t_loop_check e) end_time) eqn:Hcheck; cycle 1.
  { cbn. rewrite Nat.sub_diag. cbn. rewrite app_nil_r.
    split_and!; cbn; first [done | lia | by constructor]. }
  apply PyFacts.Qltb_lt in Hcheck.
  assert (forall n, (S n - n = 1)%nat) as Hone by lia.
  assert (forall (r' : run_state),
            sessions_started r' = S (sessions_started r0) ->
            (sessions_started r' <= sessions_started (session_loop end_time envs r').2)%nat ->
            take (sessions_started (session_loop end_time envs r').2 - sessions_started r0)
              (e :: envs) =
            e :: take (sessions_started (session_loop end_time envs r').2
                       - sessions_started r') envs) as Hmore.
  { intros r' Hr' Hle.
    replace (sessions_started (session_loop end_time envs r').2 - sessions_started r0)%nat
      with (S (sessions_started (session_loop end_time envs r').2 - sessions_started r'))
      by lia.
    reflexivity. }
  unfold run_session.
  destruct (agent_outcome e) as [[| text] | state] eqn:Hout.
  - cbn -[Nat.sub take]. rewrite Hone. cbn.
    unfold tally, session_completed, session_failed, session_actions, session_error.
    cbn. rewrite Hout, take_0, app_nil_r. cbn.
    split_and!; first [done | lia | by repeat constructor].
  - destruct (completion_check (state_file_after e));
      [| destruct (Py.Qltb (t_delay_check e) end_time && sleep_interrupted e)].
    + cbn -[Nat.sub take]. rewrite Hone. cbn.
      unfold tally, session_completed, session_failed, session_actions, session_error.
      cbn. rewrite Hout, length_app, take_0. cbn.
      split_and!; first [done | lia | by repeat constructor].
    + cbn -[Nat.sub take]. rewrite Hone. cbn.
      unfold tally, session_completed, session_failed, session_actions, session_error.
      cbn. rewrite Hout, length_app, take_0. cbn.
      split_and!; first [done | lia | by repeat constructor].
    + match goal with |- context [session_loop end_time envs ?r2] =>
        set (r' := r2); specialize (IH r'); specialize (Hmore r' eq_refl) end.
      cbv zeta in IH.
      destruct IH as (I1 & I2 & I3 & I4 & I5 & I6 & I7 & I8 & I9 & I10 & I11).
      cbv zeta. rewrite (Hmore I1).
      rewrite !tally_cons, fmap_cons. cbn [omap list_omap].
      unfold session_completed at 1 3, session_failed at 1 3, session_actions at 1,
        session_error at 1.
      rewrite Hout, I3, I4, I5, I6, I7, I9, I10, I11.
      subst r'. cbn [stats persisted sessions_started account success total_actions
                       duration error sessions_completed sessions_failed
                       stats_total_actions errors goal started_at duration_hours
                       foldr] in *.
      rewrite length_app, length_cons in *. cbn [length] in *.
      split_and!; first [done | lia | by rewrite <- app_assoc | by apply Forall_cons].
  - destruct (completion_check (state_file_after e));
      [| destruct (Py.Qltb (t_delay_check e) end_time && sleep_interrupted e)].
    + cbn -[Nat.sub take]. rewrite Hone. cbn.
      unfold tally, session_completed, session_failed, session_actions, session_error.
      cbn. rewrite Hout, length_app, take_0, app_nil_r. cbn.
      split_and!; first [done | lia | by repeat constructor].
    + cbn -[Nat.sub take]. rewrite Hone. cbn.
      unfold tally, session_completed, session_failed, session_actions, session_error.
      cbn. rewrite Hout, length_app, take_0, app_nil_r. cbn.
      split_and!; first [done | lia | by repeat constructor].
    + match goal with |- context [session_loop end_time envs ?r2] =>
        set (r' := r2); specialize (IH r'); specialize (Hmore r' eq_refl) end.
      cbv zeta in IH.
      destruct IH as (I1 & I2 & I3 & I4 & I5 & I6 & I7 & I8 & I9 & I10 & I11).
      cbv zeta. rewrite (Hmore I1).
      rewrite !tally_cons, fmap_cons. cbn [omap list_omap].
      unfold session_completed at 1 3, session_failed at 1 3, session_actions at 1,
        session_error at 1.
      rewrite Hout, I3, I4, I5, I6, I7, I9, I10, I11.
      subst r'. cbn [stats persisted sessions_started account success total_actions
                       duration error sessions_completed sessions_failed
                       stats_total_actions errors goal started_at duration_hours
                       foldr] in *.
      rewrite length_app, length_cons in *. cbn [length] in *.
      split_and!; first [done | lia | by apply Forall_cons].
Qed.

(** X25. The stats that [run_continuous] returns count the sessions it
    started: [sessions_completed] is the number of started sessions that
    returned, [sessions_failed] the number that raised an exception, the
    error log holds the texts of these exceptions in order, and
    [total_actions] is the sum of the actions the returned sessions report.
    A session interrupted by the user is counted in neither. *)
Theorem stats_count_the_sessions (goal_text : string) (hours : Z) (start_time : Q)
    (started : string) (envs : list session_env) (final_time : Q) (ended : string) :
  let r := (run_continuous goal_text hours start_time started envs final_time ended).2 in
  let ran := take (sessions_started r) envs in
  (sessions_started r <= length envs)%nat /\
  sessions_completed (stats r) =
    Z.of_nat (length (filter (fun e => session_completed e = true) ran)) /\
  sessions_failed (stats r) =
    Z.of_nat (length (filter (fun e => session_failed e = true) ran)) /\
  stats_total_actions (stats r) = foldr Z.add 0 (session_actions <$> ran) /\
  errors (stats r) = omap session_error ran /\
  goal (stats r) = goal_text /\
  duration_hours (stats r) = hours.
Proof.
  pose proof (session_loop_accounts (start_time + inject_Z (hours * 3600)) envs
                (initial_run goal_text hours started))
    as (_ & Hle & Hc & Hf & Ha & He & _ & _ & Hg & _ & Hd).
  unfold run_continuous.
  change {| stats := _; persisted := []; sessions_started := 0 |}
    with (initial_run goal_text hours started).
  destruct (session_loop (start_time + inject_Z (hours * 3600)) envs
              (initial_run goal_text hours started)) as [exit r] eqn:Hloop.
  cbn [snd] in *. rewrite Nat.sub_0_r in *. rewrite <- !tally_filter.
  destruct exit; cbn [snd finalize stats sessions_started sessions_completed
                        sessions_failed stats_total_actions errors goal duration_hours];
    cbn in Hle, Hc, Hf, Ha, He, Hg, Hd; split_and!; first [done | lia].
Qed.

(** X26. The supervisor starts a session only after reading a clock below
    the end of the budget, and a run that has ended has written the stats
    once per counted session and once more at the end: the stats returned
    are the last ones written, and they carry the end time and the overall
    runtime. *)
Theorem run_stays_in_budget_and_writes_stats (goal_text : string) (hours : Z)
    (start_time : Q) (started : string) (envs : list session_env) (final_time : Q)
    (ended : string) :
  let out := run_continuous goal_text hours start_time started envs final_time ended in
  Forall (fun e => (t_loop_check e < start_time + inject_Z (hours * 3600))%Q)
    (take (sessions_started out.2) envs) /\
  (out.1 <> ScriptEnded ->
   last (persisted out.2) = Some (stats out.2) /\
   ended_at (stats out.2) = Some ended /\
   total_runtime (stats out.2) = (final_time - start_time)%Q /\
   Z.of_nat (length (persisted out.2)) =
     sessions_completed (stats out.2) + sessions_failed (stats out.2) + 1).
Proof.
  pose proof (session_loop_accounts (start_time + inject_Z (hours * 3600)) envs
                (initial_run goal_text hours started))
    as (_ & _ & Hc & Hf & _ & _ & Hp & Hbudget & _).
  unfold run_continuous.
  change {| stats := _; persisted := []; sessions_started := 0 |}
    with (initial_run goal_text hours started).
  destruct (session_loop (start_time + inject_Z (hours * 3600)) envs
              (initial_run goal_text hours started)) as [exit r] eqn:Hloop.
  cbn [snd] in *. rewrite Nat.sub_0_r in *.
  cbn in Hc, Hf, Hp.
  destruct exit; cbn [fst snd finalize stats sessions_started persisted ended_at
                        total_runtime sessions_completed sessions_failed];
    (split; [done |]); intros Hended; try done;
    rewrite last_snoc, length_app; cbn [length]; split_and!; try done; lia.
Qed.

End SupervisorFacts.

(** ** tools/command_tools.py: the command type and the suggestions *)

Module CommandFacts.

Import CommandTools.

(** X27. [_suggest_next_steps] always suggests something and never more
    than three things, and after a failed command the last suggestion is to
    fix the errors and try again, whatever the analysis holds. *)
Theorem suggestions_are_one_to_three (success : bool) (analysis : Analysis)
    (command : string) :
  (1 <= length (_suggest_next_steps success analysis command) <= 3)%nat /\
  last (_suggest_next_steps false analysis command) =
    Some "Fix the errors and try again".
Proof.
  unfold _suggest_next_steps. split.
  - destruct success; cbn [negb].
    + destruct (String.eqb (a_type analysis) "test").
      * destruct (a_test_results analysis) as [results |]; [| cbn; lia].
        destruct (0 <? failed results); [| cbn; lia].
        destruct (a_files_mentioned analysis); cbn; lia.
      * destruct (String.eqb (a_type analysis) "build"); [cbn; lia |].
        destruct (String.eqb (a_type analysis) "run"); [| cbn; lia].
        destruct (a_warnings analysis); cbn; lia.
    + destruct (a_errors analysis); [cbn; lia |].
      destruct (a_files_mentioned analysis); cbn; lia.
  - cbn [negb]. cbv zeta. apply last_snoc.
Qed.

Section Facts.

Variable lower : string -> string.

(** X28. [_detect_command_type] answers "test" exactly when the lower-cased
    command contains "test" or "jest": the tests for "pytest" and for
    "cargo test" never decide, and a command that installs or builds
    something whose name contains "test" is typed as a test run. *)
Theorem command_type_is_test_iff (command : string) :
  _detect_command_type lower command = "test" <->
  PyStr.contains "test" (lower command) || PyStr.contains "jest" (lower command) = true.
Proof.
  unfold _detect_command_type, PyStr.contains_any. cbv zeta. cbn [existsb].
  rewrite orb_false_r.
  destruct (PyStr.contains "pytest" (lower command)) eqn:Hpytest.
  { apply (PyStrFacts.contains_part "py" "test" EmptyString) in Hpytest.
    rewrite Hpytest. done. }
  destruct (PyStr.contains "cargo test" (lower command)) eqn:Hcargo.
  { apply (PyStrFacts.contains_part "cargo " "test" EmptyString) in Hcargo.
    rewrite Hcargo. done. }
  cbn [orb]. rewrite orb_false_r.
  destruct (PyStr.contains "test" (lower command) || PyStr.contains "jest" (lower command));
    [done |].
  split; [| done]. intros H.
  repeat match type of H with
         | (if ?c then _ else _) = _ => destruct c; [discriminate H |]
         end.
  discriminate H.
Qed.

(** X29. The progress tracker and the command tool agree on test runs in
    one direction: a command that [record_command_success] counts as a
    passed test is typed "test" by [_detect_command_type]. *)
Theorem counted_test_is_typed_test (t : Tracker.ProgressTracker)
    (command output : string) (now : Q) :
  Tracker.tests_passed (Tracker.record_command_success lower t command output now) =
    Tracker.tests_passed t + 1 ->
  _detect_command_type lower command = "test".
Proof.
  intros Hcount. unfold Tracker.record_command_success in Hcount. cbn in Hcount.
  unfold _detect_command_type, PyStr.contains_any. cbv zeta. cbn [existsb].
  destruct (PyStr.contains "pytest" (lower command)) eqn:Hpytest; [done |].
  destruct (PyStr.contains "test" (lower command)) eqn:Htest; [done |].
  cbn in Hcount. lia.
Qed.

End Facts.

Lemma counted_test_is_typed_test_witness :
  _detect_command_type Demo2.lower "python -m PyTest -q" = "test".
Proof.
  apply (counted_test_is_typed_test Demo2.lower Tracker.init
           "python -m PyTest -q" "3 passed" 12%Q).
  reflexivity.
Defined.

End CommandFacts.
